(** * JARVIS chat bot: widget lifecycle, error taxonomy and logging

    A shallow embedding of the JavaScript sources
    - [src/utils/errorLogger.js]            (class ErrorLogger),
    - [src/types/index.js]                  (createMessage, createAppError),
    - [src/utils/index.js]                  (createChatMessage, createApplicationError),
    - [src/contexts/ErrorContext.jsx]       (errorReducer, addError, handleError),
    - [src/hooks/useElevenLabsWidget.js]    (the widget lifecycle hook),
    - [src/components/voice/ElevenLabsWidget.jsx] (both script-loading effects),
    - [src/components/chat/ChatWindow.jsx]  (handleSendMessage),
    followed by the properties proved about them.

    Conventions.  A JavaScript string is the list of its UTF-16 code units.
    Values the host supplies ([crypto.randomUUID()], [new Date()],
    [Math.random()], [window.location.href], the DOM) are explicit arguments.
    React state is a record; one handler call is one function from the
    committed state to the next committed state (all setters of a handler are
    applied together, and the hook rebuilds its callbacks whenever a state
    variable they read changes, as their dependency lists say).  An effect
    that React runs after the render is a function of its own, applied after
    the handler calls of the event ([afterRender], [syncChatState]).  Console
    output is not part of any state and is left out. *)

From Stdlib Require Import String Ascii DecimalString.
From Stdlib Require Import List NArith ZArith Bool Arith Lia.
From Stdlib Require Import DecimalPos DecimalZ.
Import ListNotations.

Set Implicit Arguments.

(* ------------------------------------------------------------------------- *)
(** ** JavaScript strings and arrays *)

Module JS.

Definition jsstring := list N.

(** A literal: the code units of an ASCII string. *)
Fixpoint str (s : string) : jsstring :=
  match s with
  | EmptyString => []
  | String c rest => N_of_ascii c :: str rest
  end.

Fixpoint jsstring_eqb (a b : jsstring) : bool :=
  match a, b with
  | [], [] => true
  | x :: a', y :: b' => N.eqb x y && jsstring_eqb a' b'
  | _, _ => false
  end.

(** ECMAScript WhiteSpace and LineTerminator code points, the ones
    [String.prototype.trim] strips. All of them are single code units. *)
Definition isWhiteSpace (c : N) : bool :=
  existsb (N.eqb c)
    [9; 10; 11; 12; 13; 32; 160; 5760; 8232; 8233; 8239; 8287; 12288; 65279]%N
  || (N.leb 8192 c && N.leb c 8202).

Fixpoint trimStart (s : jsstring) : jsstring :=
  match s with
  | [] => []
  | c :: rest => if isWhiteSpace c then trimStart rest else s
  end.

Definition trimEnd (s : jsstring) : jsstring := rev (trimStart (rev s)).

(** [s.trim()] *)
Definition trim (s : jsstring) : jsstring := trimEnd (trimStart s).

(** Empty or made of white space only. *)
Definition isBlank (s : jsstring) : bool := forallb isWhiteSpace s.

(** Truthiness of a string: only the empty string is falsy. *)
Definition truthy (s : jsstring) : bool :=
  match s with [] => false | _ :: _ => true end.

Fixpoint startsWith (s pat : jsstring) : bool :=
  match pat, s with
  | [], _ => true
  | _ :: _, [] => false
  | p :: pat', c :: s' => N.eqb c p && startsWith s' pat'
  end.

(** [s.includes(pat)] *)
Fixpoint includes (s pat : jsstring) : bool :=
  startsWith s pat ||
  match s with
  | [] => false
  | _ :: s' => includes s' pat
  end.

(** [`${n}`] for a non-negative integer [n] such as an array length. *)
Definition ofNat (n : nat) : jsstring :=
  str (NilZero.string_of_uint (Nat.to_uint n)).

(** [s] between double quotes (code unit 34). *)
Definition quoted (s : jsstring) : jsstring := [34%N] ++ s ++ [34%N].

(** [n.toString()] for an integer [n] such as [date.getTime()]. *)
Definition ofZ (z : Z) : jsstring :=
  str (NilZero.string_of_int (Z.to_int z)).

(** [arr.slice(-n)]: the last [n] elements; [-0] is [0], so [slice(-0)] is
    the whole array. *)
Definition sliceFromEnd (A : Type) (n : nat) (l : list A) : list A :=
  match n with
  | O => l
  | S _ => skipn (length l - n) l
  end.

(** JSON-like payloads ([details] objects). *)
Inductive jsvalue : Type :=
| JNull
| JBool (b : bool)
| JNum (z : Z)
| JStr (s : jsstring)
| JObj (fields : jsfields)
with jsfields : Type :=
| FNil
| FCons (key : jsstring) (value : jsvalue) (rest : jsfields).

(** The outcome of a call that may throw an [Error] with a message. *)
Inductive result (A : Type) : Type :=
| Ok (a : A)
| Throw (message : jsstring).
Arguments Ok {A} a.
Arguments Throw {A} message.

(** A caught value: an [Error] instance, or anything else (kept as what
    [String(value)] gives). *)
Inductive Thrown :=
| ErrorInstance (message : jsstring)
| NotAnError (asString : jsstring).

End JS.
Import JS.

Arguments str _%_string.

(* ------------------------------------------------------------------------- *)
(** ** src/utils/errorLogger.js *)

Module ErrorLogger.

Inductive Level := ERROR | WARN | INFO | DEBUG.

Record LogEntry := {
  id : jsstring;
  timestamp : jsstring;
  level : Level;
  message : jsstring;
  details : jsvalue;
  context : option jsstring;
  url : jsstring;
  userAgent : jsstring
}.

(** What the host supplies to one [createLogEntry] call. [None] stands for
    [typeof window === 'undefined'] (resp. [navigator]). *)
Record Host := {
  randomUUID : jsstring;
  nowISO : jsstring;
  window_href : option jsstring;
  navigator_userAgent : option jsstring
}.

Record Logger := {
  logs : list LogEntry;
  maxLogs : nat;
  isProduction : bool
}.

Definition set_logs (lg : Logger) (l : list LogEntry) : Logger :=
  {| logs := l; maxLogs := maxLogs lg; isProduction := isProduction lg |}.

Definition orUnknown (o : option jsstring) : jsstring :=
  match o with Some s => s | None => str "unknown" end.

Definition createLogEntry (h : Host) (lvl : Level) (msg : jsstring)
    (det : jsvalue) (ctx : option jsstring) (lg : Logger) : Logger * LogEntry :=
  let entry := {| id := randomUUID h;
                  timestamp := nowISO h;
                  level := lvl;
                  message := msg;
                  details := det;
                  context := ctx;
                  url := orUnknown (window_href h);
                  userAgent := orUnknown (navigator_userAgent h) |} in
  let pushed := logs lg ++ [entry] in
  let kept := if maxLogs lg <? length pushed
              then sliceFromEnd (maxLogs lg) pushed
              else pushed in
  (set_logs lg kept, entry).

(** The wrappers return the entry; [debug] returns [null] in production. *)
Definition error (h : Host) (msg : jsstring) (det : jsvalue)
    (ctx : option jsstring) (lg : Logger) : Logger * option LogEntry :=
  let '(lg', entry) := createLogEntry h ERROR msg det ctx lg in
  (lg', Some entry).

Definition warn (h : Host) (msg : jsstring) (det : jsvalue)
    (ctx : option jsstring) (lg : Logger) : Logger * option LogEntry :=
  let '(lg', entry) := createLogEntry h WARN msg det ctx lg in
  (lg', Some entry).

Definition info (h : Host) (msg : jsstring) (det : jsvalue)
    (ctx : option jsstring) (lg : Logger) : Logger * option LogEntry :=
  let '(lg', entry) := createLogEntry h INFO msg det ctx lg in
  (lg', Some entry).

Definition debug (h : Host) (msg : jsstring) (det : jsvalue)
    (ctx : option jsstring) (lg : Logger) : Logger * option LogEntry :=
  if isProduction lg then (lg, None)
  else
    let '(lg', entry) := createLogEntry h DEBUG msg det ctx lg in
    (lg', Some entry).

(** [new ErrorLogger()]: empty buffer, capacity 1000, then the
    initialisation entry written by [initializeLogger]. *)
Definition construct (production : bool) (h : Host) : Logger :=
  let this := {| logs := []; maxLogs := 1000; isProduction := production |} in
  fst (info h (str "ErrorLogger initialized")
         (JObj (FCons (str "environment")
                   (JStr (if production then str "production" else str "development"))
                (FCons (str "timestamp") (JStr (nowISO h))
                (FCons (str "userAgent") (JStr (orUnknown (navigator_userAgent h)))
                 FNil))))
         None this).

(** [clearLogs()] *)
Definition clearLogs (h : Host) (lg : Logger) : Logger * nat :=
  let clearedCount := length (logs lg) in
  let emptied := set_logs lg [] in
  let '(lg', _) :=
    info h (str "Cleared " ++ ofNat clearedCount ++ str " log entries")
         JNull (Some (str "Log Management")) emptied in
  (lg', clearedCount).

(** One call on the logger's public surface. *)
Inductive Call :=
| CallCreateLogEntry (lvl : Level) (msg : jsstring) (det : jsvalue) (ctx : option jsstring)
| CallError (msg : jsstring) (det : jsvalue) (ctx : option jsstring)
| CallWarn (msg : jsstring) (det : jsvalue) (ctx : option jsstring)
| CallInfo (msg : jsstring) (det : jsvalue) (ctx : option jsstring)
| CallDebug (msg : jsstring) (det : jsvalue) (ctx : option jsstring).

Definition run_call (h : Host) (c : Call) (lg : Logger) : Logger * option LogEntry :=
  match c with
  | CallCreateLogEntry lvl msg det ctx =>
      let '(lg', e) := createLogEntry h lvl msg det ctx lg in (lg', Some e)
  | CallError msg det ctx => error h msg det ctx lg
  | CallWarn msg det ctx => warn h msg det ctx lg
  | CallInfo msg det ctx => info h msg det ctx lg
  | CallDebug msg det ctx => debug h msg det ctx lg
  end.

(** A sequence of calls, each with what the host supplied to it; the result
    is the final logger and the value every call returned, in call order. *)
Fixpoint run_calls (cs : list (Host * Call)) (lg : Logger)
  : Logger * list (option LogEntry) :=
  match cs with
  | [] => (lg, [])
  | (h, c) :: rest =>
      let '(lg1, r) := run_call h c lg in
      let '(lg2, rs) := run_calls rest lg1 in
      (lg2, r :: rs)
  end.

(** Does the call reach [createLogEntry]? Only [debug] in production does not. *)
Definition reaches_log (production : bool) (c : Call) : bool :=
  match c with
  | CallDebug _ _ _ => negb production
  | _ => true
  end.

(** The entries among the returned values, in call order. *)
Fixpoint returned_entries (rs : list (option LogEntry)) : list LogEntry :=
  match rs with
  | [] => []
  | Some e :: rest => e :: returned_entries rest
  | None :: rest => returned_entries rest
  end.

Definition is_debug (c : Call) : bool :=
  match c with CallDebug _ _ _ => true | _ => false end.

(** The calls of a sequence that reach [createLogEntry]. *)
Definition log_calls (production : bool) (cs : list (Host * Call))
  : list (Host * Call) :=
  filter (fun hc => reaches_log production (snd hc)) cs.

Definition call_level (c : Call) : Level :=
  match c with
  | CallCreateLogEntry lvl _ _ _ => lvl
  | CallError _ _ _ => ERROR
  | CallWarn _ _ _ => WARN
  | CallInfo _ _ _ => INFO
  | CallDebug _ _ _ => DEBUG
  end.

Definition call_message (c : Call) : jsstring :=
  match c with
  | CallCreateLogEntry _ msg _ _ | CallError msg _ _ | CallWarn msg _ _
  | CallInfo msg _ _ | CallDebug msg _ _ => msg
  end.

(** The value [r] returned by the call [hc] is the entry that call built
    (or [null] when the call does not log). *)
Definition returns_own_entry (production : bool) (hc : Host * Call)
    (r : option LogEntry) : Prop :=
  match r with
  | Some e => reaches_log production (snd hc) = true
              /\ id e = randomUUID (fst hc)
              /\ timestamp e = nowISO (fst hc)
              /\ level e = call_level (snd hc)
              /\ message e = call_message (snd hc)
  | None => reaches_log production (snd hc) = false
  end.

End ErrorLogger.

(* ------------------------------------------------------------------------- *)
(** ** src/types/index.js *)

Module Types.

Inductive Sender := user | assistant.
Inductive MessageType := text | voice.
Inductive Status := sending | sent | error.

Module Message.
Record t := {
  id : jsstring;
  content : jsstring;
  sender : Sender;
  type : MessageType;
  timestamp : Z;
  status : Status
}.
End Message.

(** [createMessage(content, sender, type)]; [uuid] and [now] are what
    [crypto.randomUUID()] and [new Date()] give. Every message is created
    with status ['sent']. *)
Definition createMessage (uuid : jsstring) (now : Z)
    (content : jsstring) (sender : Sender) (type : MessageType) : Message.t :=
  {| Message.id := uuid;
     Message.content := content;
     Message.sender := sender;
     Message.type := type;
     Message.timestamp := now;
     Message.status := sent |}.

Module ChatState.
Record t := {
  messages : list Message.t;
  isConnected : bool;
  isListening : bool;
  isSpeaking : bool;
  error : option jsstring
}.
End ChatState.

Definition createChatState : ChatState.t :=
  {| ChatState.messages := [];
     ChatState.isConnected := false;
     ChatState.isListening := false;
     ChatState.isSpeaking := false;
     ChatState.error := None |}.

(** [ERROR_TYPES] *)
Inductive ErrorType :=
| MICROPHONE_ACCESS_DENIED
| NETWORK_ERROR
| VOICE_PROCESSING_ERROR
| WIDGET_INITIALIZATION_ERROR
| UNKNOWN_ERROR.

Definition ErrorType_eqb (a b : ErrorType) : bool :=
  match a, b with
  | MICROPHONE_ACCESS_DENIED, MICROPHONE_ACCESS_DENIED
  | NETWORK_ERROR, NETWORK_ERROR
  | VOICE_PROCESSING_ERROR, VOICE_PROCESSING_ERROR
  | WIDGET_INITIALIZATION_ERROR, WIDGET_INITIALIZATION_ERROR
  | UNKNOWN_ERROR, UNKNOWN_ERROR => true
  | _, _ => false
  end.

Definition ERROR_TYPES_values : list ErrorType :=
  [MICROPHONE_ACCESS_DENIED; NETWORK_ERROR; VOICE_PROCESSING_ERROR;
   WIDGET_INITIALIZATION_ERROR; UNKNOWN_ERROR].

Module AppError.
Record t := {
  type : ErrorType;
  message : jsstring;
  details : option jsstring;
  timestamp : Z;
  recoverable : bool
}.
End AppError.

(** [createAppError(type, message, details = null, recoverable = true)] *)
Definition createAppError (now : Z) (type : ErrorType) (message : jsstring)
    (details : option jsstring) (recoverable : bool) : AppError.t :=
  {| AppError.type := type;
     AppError.message := message;
     AppError.details := details;
     AppError.timestamp := now;
     AppError.recoverable := recoverable |}.

End Types.

(* ------------------------------------------------------------------------- *)
(** ** src/utils/index.js *)

Module Utils.
Import Types.

(** [createChatMessage(content, sender, type)]. The checks on [sender] and
    [type] cannot fail for values of the enumerations. *)
Definition createChatMessage (uuid : jsstring) (now : Z)
    (content : jsstring) (sender : Sender) (type : MessageType)
  : result Message.t :=
  if negb (truthy content) then
    Throw (str "Message content is required and must be a string")
  else if negb (existsb (fun s => match s, sender with
                                  | user, user | assistant, assistant => true
                                  | _, _ => false end) [user; assistant]) then
    Throw (str "Sender must be either " ++ quoted (str "user") ++ str " or "
           ++ quoted (str "assistant"))
  else if negb (existsb (fun t => match t, type with
                                  | text, text | voice, voice => true
                                  | _, _ => false end) [text; voice]) then
    Throw (str "Type must be either " ++ quoted (str "text") ++ str " or "
           ++ quoted (str "voice"))
  else Ok (createMessage uuid now (trim content) sender type).

(** [createApplicationError(type, message, details, recoverable)] *)
Definition createApplicationError (now : Z) (type : ErrorType)
    (message : jsstring) (details : option jsstring) (recoverable : bool)
  : AppError.t :=
  let type := if negb (existsb (ErrorType_eqb type) ERROR_TYPES_values)
              then UNKNOWN_ERROR else type in
  createAppError now type message details recoverable.

End Utils.

(* ------------------------------------------------------------------------- *)
(** ** src/contexts/ErrorContext.jsx *)

Module ErrorContext.
Import Types.

Record State := {
  errors : list AppError.t;
  isRecovering : bool
}.

Inductive ReducerAction :=
| ADD_ERROR (payload : AppError.t)
| REMOVE_ERROR (payload : jsstring)
| CLEAR_ERRORS
| SET_RECOVERING (payload : bool).

Definition errorReducer (state : State) (action : ReducerAction) : State :=
  match action with
  | ADD_ERROR payload =>
      {| errors := errors state ++ [payload];
         isRecovering := isRecovering state |}
  | REMOVE_ERROR payload =>
      {| errors := filter (fun e => negb (jsstring_eqb
                                            (ofZ (AppError.timestamp e)) payload))
                          (errors state);
         isRecovering := isRecovering state |}
  | CLEAR_ERRORS =>
      {| errors := []; isRecovering := isRecovering state |}
  | SET_RECOVERING payload =>
      {| errors := errors state; isRecovering := payload |}
  end.

Definition initialState : State := {| errors := []; isRecovering := false |}.

(** A toast shown by [toast.error]. *)
Record Toast := {
  toastMessage : jsstring;
  duration : N;
  dismissOnClick : bool
}.

(** The provider: the reducer state and the toasts shown so far. *)
Record Provider := {
  state : State;
  toasts : list Toast
}.

Definition initialProvider : Provider :=
  {| state := initialState; toasts := [] |}.

Definition addError (error : AppError.t) (p : Provider) : Provider :=
  let toastMessage :=
    if AppError.recoverable error
    then AppError.message error ++ str " (Tap to retry)"
    else AppError.message error in
  let shown :=
    if AppError.recoverable error
    then {| toastMessage := toastMessage; duration := 5000%N; dismissOnClick := true |}
    else {| toastMessage := toastMessage; duration := 8000%N; dismissOnClick := false |} in
  {| state := errorReducer (state p) (ADD_ERROR error);
     toasts := toasts p ++ [shown] |}.

Definition removeError (errorId : jsstring) (p : Provider) : Provider :=
  {| state := errorReducer (state p) (REMOVE_ERROR errorId); toasts := toasts p |}.

Definition clearErrors (p : Provider) : Provider :=
  {| state := errorReducer (state p) CLEAR_ERRORS; toasts := toasts p |}.

(** The chain of substring tests at the head of [handleError]. *)
Definition classify (message : jsstring) : ErrorType :=
  if includes message (str "microphone") || includes message (str "getUserMedia")
  then MICROPHONE_ACCESS_DENIED
  else if includes message (str "network") || includes message (str "fetch")
  then NETWORK_ERROR
  else if includes message (str "voice") || includes message (str "speech")
  then VOICE_PROCESSING_ERROR
  else if includes message (str "widget") || includes message (str "elevenlabs")
  then WIDGET_INITIALIZATION_ERROR
  else UNKNOWN_ERROR.

(** The [appError] that [handleError(error, context)] builds. *)
Definition toAppError (now : Z) (error : Thrown) (context : jsstring)
  : AppError.t :=
  match error with
  | ErrorInstance message =>
      let errorType := classify message in
      createAppError now errorType message
        (if truthy context then Some (str "Context: " ++ context) else None)
        (negb (ErrorType_eqb errorType MICROPHONE_ACCESS_DENIED))
  | NotAnError asString =>
      createAppError now UNKNOWN_ERROR (str "An unexpected error occurred")
        (Some (if truthy context
               then str "Context: " ++ context ++ str ", Error: " ++ asString
               else asString))
        true
  end.

(** [handleError(error, context = '')] *)
Definition handleError (now : Z) (error : Thrown) (context : jsstring)
    (p : Provider) : Provider :=
  addError (toAppError now error context) p.

End ErrorContext.

(* ------------------------------------------------------------------------- *)
(** ** The document *)

Module Dom.

(** An element: its identity as a node, its tag and its attributes. *)
Record element := {
  node_id : nat;
  tagName : jsstring;
  attributes : list (jsstring * jsstring)
}.

(** The document: the children of [head] and the elements of [body], each in
    document order; [next_id] names the next node [createElement] makes. *)
Record document := {
  next_id : nat;
  head : list element;
  body : list element
}.

Definition emptyDocument : document :=
  {| next_id := 0; head := []; body := [] |}.

Definition elements (doc : document) : list element := head doc ++ body doc.

Fixpoint getAttribute (name : jsstring) (attrs : list (jsstring * jsstring))
  : option jsstring :=
  match attrs with
  | [] => None
  | (k, v) :: rest => if jsstring_eqb k name then Some v else getAttribute name rest
  end.

(** Does the element match the selector [tag]? *)
Definition matchesTag (tag : jsstring) (e : element) : bool :=
  jsstring_eqb (tagName e) tag.

(** Does the element match the selector [tag[attr*="part"]]? *)
Definition matchesAttrContains (tag attr part : jsstring) (e : element) : bool :=
  matchesTag tag e &&
  match getAttribute attr (attributes e) with
  | Some v => includes v part
  | None => false
  end.

(** [document.querySelector(sel)]: the first match in document order. *)
Definition querySelector (sel : element -> bool) (doc : document)
  : option element :=
  find sel (elements doc).

(** [document.createElement(tag)] followed by setting the attributes. *)
Definition createElement (tag : jsstring) (attrs : list (jsstring * jsstring))
    (doc : document) : document * element :=
  ({| next_id := S (next_id doc); head := head doc; body := body doc |},
   {| node_id := next_id doc; tagName := tag; attributes := attrs |}).

(** [document.head.appendChild(e)] *)
Definition appendToHead (e : element) (doc : document) : document :=
  {| next_id := next_id doc; head := head doc ++ [e]; body := body doc |}.

Definition sameNode (a b : element) : bool := Nat.eqb (node_id a) (node_id b).

(** [if (e.parentNode) e.parentNode.removeChild(e)] *)
Definition removeIfAttached (e : element) (doc : document) : document :=
  {| next_id := next_id doc;
     head := filter (fun x => negb (sameNode x e)) (head doc);
     body := filter (fun x => negb (sameNode x e)) (body doc) |}.

End Dom.

(* ------------------------------------------------------------------------- *)
(** ** src/hooks/useElevenLabsWidget.js *)

Module Widget.
Import Types.

(** The status strings [handleStatusChange] switches on; [StOther] is any
    string none of its cases matches. *)
Inductive WidgetStatus :=
| StConnected | StDisconnected | StIdle | StInCall
| StListening | StSpeaking | StError
| StOther (status : jsstring).

(** The hook's [useState] cells and its [widgetRef]. *)
Record Hook := {
  isConnected : bool;
  isInCall : bool;
  isListening : bool;
  isSpeaking : bool;
  error : option AppError.t;
  widgetStatus : WidgetStatus;
  widgetRef : option Dom.element
}.

(** The hook together with the error context whose [handleError] it calls. *)
Record World := {
  hook : Hook;
  provider : ErrorContext.Provider
}.

Definition initialHook : Hook :=
  {| isConnected := false; isInCall := false; isListening := false;
     isSpeaking := false; error := None; widgetStatus := StIdle;
     widgetRef := None |}.

Definition initialWorld : World :=
  {| hook := initialHook; provider := ErrorContext.initialProvider |}.

(** What the host supplies to one handler call: the document, and the
    reading of the clock at the [k]-th [new Date()] of the call. *)
Record Host := {
  document : Dom.document;
  clock : nat -> Z
}.

Definition setHook (w : World) (k : Hook) : World :=
  {| hook := k; provider := provider w |}.

Definition handleStatusChange (status : WidgetStatus) (w : World) : World :=
  let k := hook w in
  match status with
  | StConnected =>
      setHook w {| isConnected := true; isInCall := isInCall k;
                   isListening := isListening k; isSpeaking := isSpeaking k;
                   error := None; widgetStatus := status;
                   widgetRef := widgetRef k |}
  | StDisconnected | StIdle =>
      setHook w {| isConnected := false; isInCall := false;
                   isListening := false; isSpeaking := false;
                   error := error k; widgetStatus := status;
                   widgetRef := widgetRef k |}
  | StInCall =>
      setHook w {| isConnected := isConnected k; isInCall := true;
                   isListening := isListening k; isSpeaking := isSpeaking k;
                   error := error k; widgetStatus := status;
                   widgetRef := widgetRef k |}
  | StListening =>
      setHook w {| isConnected := isConnected k; isInCall := isInCall k;
                   isListening := true; isSpeaking := false;
                   error := error k; widgetStatus := status;
                   widgetRef := widgetRef k |}
  | StSpeaking =>
      setHook w {| isConnected := isConnected k; isInCall := isInCall k;
                   isListening := false; isSpeaking := true;
                   error := error k; widgetStatus := status;
                   widgetRef := widgetRef k |}
  | StError =>
      setHook w {| isConnected := false; isInCall := false;
                   isListening := false; isSpeaking := false;
                   error := error k; widgetStatus := status;
                   widgetRef := widgetRef k |}
  | StOther _ =>
      setHook w {| isConnected := isConnected k; isInCall := isInCall k;
                   isListening := isListening k; isSpeaking := isSpeaking k;
                   error := error k; widgetStatus := status;
                   widgetRef := widgetRef k |}
  end.

Definition handleConversationStart (w : World) : World :=
  let k := hook w in
  setHook w {| isConnected := isConnected k; isInCall := true;
               isListening := isListening k; isSpeaking := isSpeaking k;
               error := None; widgetStatus := widgetStatus k;
               widgetRef := widgetRef k |}.

Definition handleConversationEnd (w : World) : World :=
  let k := hook w in
  setHook w {| isConnected := isConnected k; isInCall := false;
               isListening := false; isSpeaking := false;
               error := error k; widgetStatus := widgetStatus k;
               widgetRef := widgetRef k |}.

Definition handleWidgetError (h : Host) (errorMessage : jsstring) (w : World)
  : World :=
  let k := hook w in
  let appError :=
    Utils.createApplicationError (clock h 0) WIDGET_INITIALIZATION_ERROR
      errorMessage (Some (str "ElevenLabs widget error")) true in
  {| hook := {| isConnected := isConnected k; isInCall := isInCall k;
                isListening := isListening k; isSpeaking := isSpeaking k;
                error := Some appError; widgetStatus := widgetStatus k;
                widgetRef := widgetRef k |};
     provider := ErrorContext.handleError (clock h 1)
                   (ErrorInstance errorMessage) (str "ElevenLabs widget")
                   (provider w) |}.

(** [document.querySelector('elevenlabs-convai')] *)
Definition locateWidget (h : Host) : option Dom.element :=
  Dom.querySelector (Dom.matchesTag (str "elevenlabs-convai")) (document h).

(** [connect()]: the [try] body throws when the element is missing, and the
    [catch] turns that into the hook's error and a report. *)
Definition connect (h : Host) (w : World) : World :=
  let k := hook w in
  let attempt : result Dom.element :=
    match locateWidget h with
    | None => Throw (str "ElevenLabs widget not found")
    | Some widget => Ok widget
    end in
  match attempt with
  | Ok widget =>
      setHook w {| isConnected := true; isInCall := isInCall k;
                   isListening := isListening k; isSpeaking := isSpeaking k;
                   error := None; widgetStatus := widgetStatus k;
                   widgetRef := Some widget |}
  | Throw message =>
      let appError :=
        Utils.createApplicationError (clock h 0) WIDGET_INITIALIZATION_ERROR
          (str "Failed to connect to voice service") (Some message) true in
      {| hook := {| isConnected := isConnected k; isInCall := isInCall k;
                    isListening := isListening k; isSpeaking := isSpeaking k;
                    error := Some appError; widgetStatus := widgetStatus k;
                    widgetRef := widgetRef k |};
         provider := ErrorContext.handleError (clock h 1)
                       (ErrorInstance message) (str "Widget connection")
                       (provider w) |}
  end.

(** [disconnect()]; nothing in its [try] body throws. *)
Definition disconnect (w : World) : World :=
  let k := hook w in
  setHook w {| isConnected := false; isInCall := false;
               isListening := false; isSpeaking := false;
               error := None; widgetStatus := widgetStatus k;
               widgetRef := widgetRef k |}.

Definition clearError (w : World) : World :=
  let k := hook w in
  setHook w {| isConnected := isConnected k; isInCall := isInCall k;
               isListening := isListening k; isSpeaking := isSpeaking k;
               error := None; widgetStatus := widgetStatus k;
               widgetRef := widgetRef k |}.

(** [startVoiceInput()]; the returned boolean is the success flag. Nothing
    in its [try] body throws. *)
Definition startVoiceInput (h : Host) (w : World) : World * bool :=
  let k := hook w in
  if negb (isConnected k) then
    let appError :=
      Utils.createApplicationError (clock h 0) WIDGET_INITIALIZATION_ERROR
        (str "Voice service not connected")
        (Some (str "Cannot start voice input without connection")) true in
    (setHook w {| isConnected := isConnected k; isInCall := isInCall k;
                  isListening := isListening k; isSpeaking := isSpeaking k;
                  error := Some appError; widgetStatus := widgetStatus k;
                  widgetRef := widgetRef k |},
     false)
  else
    (setHook w {| isConnected := isConnected k; isInCall := isInCall k;
                  isListening := true; isSpeaking := false;
                  error := error k; widgetStatus := widgetStatus k;
                  widgetRef := widgetRef k |},
     true).

(** [stopVoiceInput()]; nothing in its [try] body throws. *)
Definition stopVoiceInput (w : World) : World * bool :=
  let k := hook w in
  (setHook w {| isConnected := isConnected k; isInCall := isInCall k;
                isListening := false; isSpeaking := isSpeaking k;
                error := error k; widgetStatus := widgetStatus k;
                widgetRef := widgetRef k |},
   true).

Definition toggleVoiceInput (h : Host) (w : World) : World * bool :=
  if isListening (hook w) then stopVoiceInput w else startVoiceInput h w.

(** The calls that can be made on the hook: the four handlers it gives the
    widget component, and its six commands. [step] below is the call alone;
    the effect React runs after the render that follows is [afterRender]. *)
Inductive Action :=
| StatusChange (status : WidgetStatus)
| ConversationStart
| ConversationEnd
| WidgetError (errorMessage : jsstring)
| Connect
| Disconnect
| ClearError
| StartVoiceInput
| StopVoiceInput
| ToggleVoiceInput.

Definition step (h : Host) (a : Action) (w : World) : World :=
  match a with
  | StatusChange status => handleStatusChange status w
  | ConversationStart => handleConversationStart w
  | ConversationEnd => handleConversationEnd w
  | WidgetError errorMessage => handleWidgetError h errorMessage w
  | Connect => connect h w
  | Disconnect => disconnect w
  | ClearError => clearError w
  | StartVoiceInput => fst (startVoiceInput h w)
  | StopVoiceInput => fst (stopVoiceInput w)
  | ToggleVoiceInput => fst (toggleVoiceInput h w)
  end.

Fixpoint run (trace : list (Host * Action)) (w : World) : World :=
  match trace with
  | [] => w
  | (h, a) :: rest => run rest (step h a w)
  end.

(** The hook's last effect has the dependencies [[isInCall, disconnect]], so
    React runs its cleanup not only on unmount but after every render in
    which [isInCall] changed, with the [isInCall] of the render before: when
    a call has ended, the cleanup calls [disconnect()]. [before] is the state
    committed before an event and [after] the state the handler calls of
    that event left (all of them are one render). *)
Definition afterRender (before after : World) : World :=
  if isInCall (hook before) && negb (isInCall (hook after))
  then disconnect after
  else after.

(** One call on the hook, through to the state the hook settles in. *)
Definition stepRendered (h : Host) (a : Action) (w : World) : World :=
  afterRender w (step h a w).

Fixpoint runRendered (trace : list (Host * Action)) (w : World) : World :=
  match trace with
  | [] => w
  | (h, a) :: rest => runRendered rest (stepRendered h a w)
  end.

(** The calls that set [isInCall] to false. *)
Definition endsCall (a : Action) : bool :=
  match a with
  | StatusChange StDisconnected | StatusChange StIdle | StatusChange StError
  | ConversationEnd | Disconnect => true
  | _ => false
  end.

(** Does the call, made in the state [w], leave the error field [null]?
    Four calls set it to [null] themselves, [connect] does when it finds the
    element, and a call that ends an active call is followed by the
    [disconnect()] of the effect cleanup. *)
Definition resetsError (h : Host) (a : Action) (w : World) : bool :=
  match a with
  | StatusChange StConnected | ConversationStart | Disconnect | ClearError =>
      true
  | Connect =>
      match locateWidget h with Some _ => true | None => false end
  | _ => endsCall a && isInCall (hook w)
  end.

End Widget.

(* ------------------------------------------------------------------------- *)
(** ** src/components/voice: the two ElevenLabsWidget components *)

Module VoiceWidget.

Definition scriptSrc : jsstring :=
  str "https://unpkg.com/@elevenlabs/convai-widget-embed".

(** The script element both components build: [src], [async], [type]. *)
Definition newScript (doc : Dom.document) : Dom.document * Dom.element :=
  Dom.createElement (str "script")
    [(str "src", scriptSrc); (str "async", str "true");
     (str "type", str "text/javascript")] doc.

(** The selector [script[src*="convai-widget-embed"]]. *)
Definition isEmbedScript : Dom.element -> bool :=
  Dom.matchesAttrContains (str "script") (str "src") (str "convai-widget-embed").

(** The embed scripts present in the document. *)
Definition embedScripts (doc : Dom.document) : list Dom.element :=
  filter isEmbedScript (Dom.elements doc).

(** The component that uses the error context: [loadScript] of its first
    effect. The result is the document and whether [isScriptLoaded] was set
    at once. Its cleanup leaves the script in place. *)
Definition loadScript (doc : Dom.document) : Dom.document * bool :=
  match Dom.querySelector isEmbedScript doc with
  | Some _ => (doc, true)
  | None =>
      let '(doc1, script) := newScript doc in
      (Dom.appendToHead script doc1, false)
  end.

(** The compact component: its mount effect appends a new script whatever
    the document holds, and gives the script to its cleanup. *)
Definition compactMount (doc : Dom.document) : Dom.document * Dom.element :=
  let '(doc1, script) := newScript doc in
  (Dom.appendToHead script doc1, script).

(** The cleanup of the compact component's effect. *)
Definition compactCleanup (script : Dom.element) (doc : Dom.document)
  : Dom.document :=
  Dom.removeIfAttached script doc.

(** A page: the document and the hook. *)
Record Page := {
  doc : Dom.document;
  world : Widget.World
}.

(** Mounting or unmounting the component with [loadScript], or calling the
    hook's [connect()] (with the clock of that call). *)
Inductive PageEvent :=
| Mount
| Unmount
| CallConnect (clock : nat -> Z).

Definition pageStep (ev : PageEvent) (pg : Page) : Page :=
  match ev with
  | Mount => {| doc := fst (loadScript (doc pg)); world := world pg |}
  | Unmount => pg
  | CallConnect clock =>
      {| doc := doc pg;
         world := Widget.connect
                    {| Widget.document := doc pg; Widget.clock := clock |}
                    (world pg) |}
  end.

Fixpoint pageRun (evs : list PageEvent) (pg : Page) : Page :=
  match evs with
  | [] => pg
  | ev :: rest => pageRun rest (pageStep ev pg)
  end.

End VoiceWidget.

(* ------------------------------------------------------------------------- *)
(** ** src/components/chat/ChatWindow.jsx *)

Module ChatWindow.
Import Types.

(** The component's [useState] cells, the reply timers [setTimeout] has
    pending, and the error context. *)
Record State := {
  chatState : ChatState.t;
  inputValue : jsstring;
  isLoading : bool;
  pendingReplies : nat;
  provider : ErrorContext.Provider
}.

Definition initialState : State :=
  {| chatState := createChatState; inputValue := []; isLoading := false;
     pendingReplies := 0; provider := ErrorContext.initialProvider |}.

(** What the host supplies to one call: [crypto.randomUUID()], the clock at
    the [k]-th [new Date()], and [Math.floor(Math.random() * 5)]. *)
Record Host := {
  randomUUID : jsstring;
  clock : nat -> Z;
  randomIndex : nat
}.

Definition setMessages (c : ChatState.t) (l : list Message.t) : ChatState.t :=
  {| ChatState.messages := l;
     ChatState.isConnected := ChatState.isConnected c;
     ChatState.isListening := ChatState.isListening c;
     ChatState.isSpeaking := ChatState.isSpeaking c;
     ChatState.error := ChatState.error c |}.

Definition setError (c : ChatState.t) (e : option jsstring) : ChatState.t :=
  {| ChatState.messages := ChatState.messages c;
     ChatState.isConnected := ChatState.isConnected c;
     ChatState.isListening := ChatState.isListening c;
     ChatState.isSpeaking := ChatState.isSpeaking c;
     ChatState.error := e |}.

Definition responses : list jsstring :=
  [str "I understand your request. How can I assist you further?";
   str "Processing your input. What would you like me to help you with next?";
   str "I'm here to help. Please let me know if you need anything else.";
   str "Your message has been received. I'm ready for your next command.";
   str "Thank you for your input. How may I be of service?"].

(** [handleSendMessage(content)] up to the point where it has set the timer. *)
Definition handleSendMessage (h : Host) (content : jsstring) (st : State)
  : State :=
  if negb (truthy (trim content)) then st
  else
    match Utils.createChatMessage (randomUUID h) (clock h 0)
            (trim content) user text with
    | Ok userMessage =>
        {| chatState := setMessages (chatState st)
                          (ChatState.messages (chatState st) ++ [userMessage]);
           inputValue := [];
           isLoading := true;
           pendingReplies := S (pendingReplies st);
           provider := provider st |}
    | Throw message =>
        {| chatState := setError (chatState st)
                          (Some (str "Failed to send message. Please try again."));
           inputValue := inputValue st;
           isLoading := false;
           pendingReplies := pendingReplies st;
           provider := ErrorContext.handleError (clock h 0)
                         (ErrorInstance message) (str "Message sending")
                         (provider st) |}
    end.

(** The callback given to [setTimeout], run when a pending timer fires. An
    exception in it is not caught by anything and leaves the state as it is. *)
Definition replyTimerFires (h : Host) (st : State) : State :=
  match pendingReplies st with
  | O => st
  | S pending =>
      let randomResponse :=
        match nth_error responses (randomIndex h) with
        | Some r => r
        | None => []  (* undefined: falsy, as the empty string is *)
        end in
      match Utils.createChatMessage (randomUUID h) (clock h 0)
              randomResponse assistant text with
      | Ok assistantMessage =>
          {| chatState := setMessages (chatState st)
                            (ChatState.messages (chatState st) ++ [assistantMessage]);
             inputValue := inputValue st;
             isLoading := false;
             pendingReplies := pending;
             provider := provider st |}
      | Throw _ =>
          {| chatState := chatState st; inputValue := inputValue st;
             isLoading := isLoading st; pendingReplies := pending;
             provider := provider st |}
      end
  end.

End ChatWindow.

(* ------------------------------------------------------------------------- *)
(** ** src/utils/errorLogger.js: the query surface *)

Module LoggerQueries.
Import ErrorLogger.

Definition Level_eqb (a b : Level) : bool :=
  match a, b with
  | ERROR, ERROR | WARN, WARN | INFO, INFO | DEBUG, DEBUG => true
  | _, _ => false
  end.

(** [getLogsByLevel(level)] *)
Definition getLogsByLevel (lvl : Level) (lg : Logger) : list LogEntry :=
  filter (fun log => Level_eqb (level log) lvl) (logs lg).

(** [getRecentLogs(count)], for a count that is a non-negative integer. *)
Definition getRecentLogs (count : nat) (lg : Logger) : list LogEntry :=
  sliceFromEnd count (logs lg).

(** The debug panel's [refreshLogs]: what it shows. *)
Definition refreshLogs (lg : Logger) : list LogEntry := getRecentLogs 100 lg.

(** One operation on the logger: a logging call or [clearLogs()]. *)
Inductive Op :=
| OpCall (c : Call)
| OpClearLogs.

Definition run_op (h : Host) (op : Op) (lg : Logger) : Logger :=
  match op with
  | OpCall c => fst (run_call h c lg)
  | OpClearLogs => fst (clearLogs h lg)
  end.

Fixpoint run_ops (ops : list (Host * Op)) (lg : Logger) : Logger :=
  match ops with
  | [] => lg
  | (h, op) :: rest => run_ops rest (run_op h op lg)
  end.

(** Is the operation a direct [createLogEntry('DEBUG', ...)]? *)
Definition is_direct_debug (op : Op) : bool :=
  match op with
  | OpCall (CallCreateLogEntry DEBUG _ _ _) => true
  | _ => false
  end.

End LoggerQueries.

(* ------------------------------------------------------------------------- *)
(** ** src/contexts/ErrorContext.jsx: dismissing a toast *)

Module Notifications.
Import Types ErrorContext.

(** The id by which an error is removed: [error.timestamp.getTime().toString()]. *)
Definition errorId (error : AppError.t) : jsstring :=
  ofZ (AppError.timestamp error).

(** Running the [onClick] callback that [addError(error)] hands over with
    its toast: only the toast of a recoverable error is given one, and it
    removes the error by its id. *)
Definition toastOnClick (error : AppError.t) (p : Provider) : Provider :=
  if AppError.recoverable error then removeError (errorId error) p else p.

End Notifications.

(* ------------------------------------------------------------------------- *)
(** ** src/hooks/useElevenLabsWidget.js: utilities and teardown *)

Module WidgetState.
Import Widget.

(** [isWidgetAvailable()]; [window] is defined wherever there is a document. *)
Definition isWidgetAvailable (h : Host) : bool :=
  match Dom.querySelector VoiceWidget.isEmbedScript (document h) with
  | Some _ => true
  | None => false
  end.

(** [getState()] *)
Record Summary := {
  isConnected : bool;
  isInCall : bool;
  isListening : bool;
  isSpeaking : bool;
  widgetStatus : WidgetStatus;
  error : option Types.AppError.t;
  isAvailable : bool
}.

Definition getState (h : Host) (w : World) : Summary :=
  {| isConnected := Widget.isConnected (hook w);
     isInCall := Widget.isInCall (hook w);
     isListening := Widget.isListening (hook w);
     isSpeaking := Widget.isSpeaking (hook w);
     widgetStatus := Widget.widgetStatus (hook w);
     error := Widget.error (hook w);
     isAvailable := isWidgetAvailable h |}.

(** The cleanup of the hook's last effect, run on unmount. *)
Definition cleanupOnUnmount (w : World) : World :=
  if Widget.isInCall (hook w) then disconnect w else w.

End WidgetState.

(* ------------------------------------------------------------------------- *)
(** ** src/components/voice/ElevenLabsWidget.jsx: the events of the component
       with the error context, wired to the hook as ChatWindow wires it *)

Module WidgetComponent.
Import Widget.

(** The component's own [useState] cells. *)
Record Component := {
  isScriptLoaded : bool;
  widgetStatus : WidgetStatus;
  isVisible : bool
}.

Definition initialComponent : Component :=
  {| isScriptLoaded := false; widgetStatus := StIdle; isVisible := true |}.

(** The mounted component and the hook whose handlers are its props
    ([onStatusChange = handleStatusChange], [onConversationStart],
    [onConversationEnd], [onError = handleWidgetError]); the component's
    [handleError] is that of the same error context. *)
Record Mounted := {
  component : Component;
  world : World
}.

Definition initialMounted : Mounted :=
  {| component := initialComponent; world := initialWorld |}.

(** The four events the component listens to; [detailMessage] is
    [event.detail?.message], [None] when it is undefined. *)
Inductive WidgetEvent :=
| EvConnect
| EvDisconnect
| EvCall
| EvError (detailMessage : option jsstring).

Definition setStatus (c : Component) (status : WidgetStatus) : Component :=
  {| isScriptLoaded := isScriptLoaded c; widgetStatus := status;
     isVisible := isVisible c |}.

(** [detail?.message || 'Widget error occurred'] *)
Definition errorMessageOf (detailMessage : option jsstring) : jsstring :=
  match detailMessage with
  | Some m => if truthy m then m else str "Widget error occurred"
  | None => str "Widget error occurred"
  end.

(** [onError?.(errorMessage); handleError(new Error(errorMessage), context)] *)
Definition reportTwice (h : Host) (errorMessage context : jsstring) (w : World)
  : World :=
  let w1 := handleWidgetError h errorMessage w in
  {| hook := hook w1;
     provider := ErrorContext.handleError (clock h 2)
                   (ErrorInstance errorMessage) context (provider w1) |}.

(** [handleWidgetEvent(event)]: the handler calls alone; [reactRendered]
    below adds the hook's effect that follows the render. *)
Definition handleWidgetEvent (h : Host) (ev : WidgetEvent) (m : Mounted)
  : Mounted :=
  match ev with
  | EvConnect =>
      {| component := setStatus (component m) StConnected;
         world := handleStatusChange StConnected (world m) |}
  | EvDisconnect =>
      {| component := setStatus (component m) StIdle;
         world := handleConversationEnd (handleStatusChange StIdle (world m)) |}
  | EvCall =>
      {| component := setStatus (component m) StInCall;
         world := handleConversationStart (world m) |}
  | EvError detailMessage =>
      {| component := setStatus (component m) StError;
         world := reportTwice h (errorMessageOf detailMessage)
                    (str "ElevenLabs widget")
                    (handleStatusChange StError (world m)) |}
  end.

(** [script.onload] *)
Definition scriptLoaded (m : Mounted) : Mounted :=
  {| component := {| isScriptLoaded := true; widgetStatus := StIdle;
                     isVisible := isVisible (component m) |};
     world := handleStatusChange StIdle (world m) |}.

(** [script.onerror] *)
Definition scriptFailed (h : Host) (m : Mounted) : Mounted :=
  {| component := setStatus (component m) StError;
     world := reportTwice h (str "Failed to load ElevenLabs widget script")
                (str "ElevenLabs script loading")
                (handleStatusChange StError (world m)) |}.

(** The commands of the hook a user of it can call. *)
Inductive Command :=
| CmdConnect | CmdDisconnect | CmdClearError
| CmdStartVoiceInput | CmdStopVoiceInput | CmdToggleVoiceInput.

Definition commandAction (c : Command) : Action :=
  match c with
  | CmdConnect => Connect
  | CmdDisconnect => Disconnect
  | CmdClearError => ClearError
  | CmdStartVoiceInput => StartVoiceInput
  | CmdStopVoiceInput => StopVoiceInput
  | CmdToggleVoiceInput => ToggleVoiceInput
  end.

(** What can happen to the mounted component. *)
Inductive Input :=
| FromWidget (ev : WidgetEvent)
| ScriptLoaded
| ScriptFailed
| Local (c : Command).

Definition react (h : Host) (i : Input) (m : Mounted) : Mounted :=
  match i with
  | FromWidget ev => handleWidgetEvent h ev m
  | ScriptLoaded => scriptLoaded m
  | ScriptFailed => scriptFailed h m
  | Local c => {| component := component m;
                  world := step h (commandAction c) (world m) |}
  end.

Fixpoint reactAll (inputs : list (Host * Input)) (m : Mounted) : Mounted :=
  match inputs with
  | [] => m
  | (h, i) :: rest => reactAll rest (react h i m)
  end.


End WidgetComponent.

(* ------------------------------------------------------------------------- *)
(** ** src/components/chat/ChatWindow.jsx: voice toggle, keyboard, status *)

Module ChatController.
Import Types.

(** The ChatWindow state together with the hook it uses; the error context
    is the one in [ui]. *)
Record App := {
  ui : ChatWindow.State;
  hook : Widget.Hook
}.

Definition initialApp : App :=
  {| ui := ChatWindow.initialState; hook := Widget.initialHook |}.

Definition toWorld (app : App) : Widget.World :=
  {| Widget.hook := hook app;
     Widget.provider := ChatWindow.provider (ui app) |}.

Definition withWorld (app : App) (w : Widget.World) : App :=
  {| ui := {| ChatWindow.chatState := ChatWindow.chatState (ui app);
              ChatWindow.inputValue := ChatWindow.inputValue (ui app);
              ChatWindow.isLoading := ChatWindow.isLoading (ui app);
              ChatWindow.pendingReplies := ChatWindow.pendingReplies (ui app);
              ChatWindow.provider := Widget.provider w |};
     hook := Widget.hook w |}.

Definition withUi (app : App) (u : ChatWindow.State) : App :=
  {| ui := u; hook := hook app |}.

Definition setChatError (u : ChatWindow.State) (e : option jsstring)
  : ChatWindow.State :=
  {| ChatWindow.chatState := ChatWindow.setError (ChatWindow.chatState u) e;
     ChatWindow.inputValue := ChatWindow.inputValue u;
     ChatWindow.isLoading := ChatWindow.isLoading u;
     ChatWindow.pendingReplies := ChatWindow.pendingReplies u;
     ChatWindow.provider := ChatWindow.provider u |}.

Definition setInputValue (u : ChatWindow.State) (v : jsstring)
  : ChatWindow.State :=
  {| ChatWindow.chatState := ChatWindow.chatState u;
     ChatWindow.inputValue := v;
     ChatWindow.isLoading := ChatWindow.isLoading u;
     ChatWindow.pendingReplies := ChatWindow.pendingReplies u;
     ChatWindow.provider := ChatWindow.provider u |}.

(** The effect that copies the hook's state into [chatState]:
    [error: widgetError?.message || null]. *)
Definition syncChatState (app : App) : App :=
  let c := ChatWindow.chatState (ui app) in
  let synced :=
    {| ChatState.messages := ChatState.messages c;
       ChatState.isConnected := Widget.isConnected (hook app);
       ChatState.isListening := Widget.isListening (hook app);
       ChatState.isSpeaking := Widget.isSpeaking (hook app);
       ChatState.error :=
         match Widget.error (hook app) with
         | Some widgetError =>
             if truthy (AppError.message widgetError)
             then Some (AppError.message widgetError) else None
         | None => None
         end |} in
  withUi app
    {| ChatWindow.chatState := synced;
       ChatWindow.inputValue := ChatWindow.inputValue (ui app);
       ChatWindow.isLoading := ChatWindow.isLoading (ui app);
       ChatWindow.pendingReplies := ChatWindow.pendingReplies (ui app);
       ChatWindow.provider := ChatWindow.provider (ui app) |}.

(** [handleVoiceToggle()]; [toggleVoiceInput] does not throw. *)
Definition handleVoiceToggle (hw : Widget.Host) (app : App) : App :=
  let '(w, success) := Widget.toggleVoiceInput hw (toWorld app) in
  let app' := withWorld app w in
  if negb success
  then withUi app'
         (setChatError (ui app')
            (Some (str "Failed to toggle voice input. Please try again.")))
  else app'.

(** A [keydown] event: the modifier flags, the key, and whether
    [document.activeElement] is the chat input. *)
Record KeyEvent := {
  ctrlKey : bool;
  metaKey : bool;
  key : jsstring;
  inputFocused : bool
}.

(** [handleKeyDown(e)]: three [if]s in a row; [inputValue] and [isListening]
    are the values of the render the listener was registered in. *)
Definition handleKeyDown (hc : ChatWindow.Host) (hw : Widget.Host)
    (e : KeyEvent) (app : App) : App :=
  let inputValue := ChatWindow.inputValue (ui app) in
  let isListening := Widget.isListening (hook app) in
  let app1 :=
    if (ctrlKey e || metaKey e) && jsstring_eqb (key e) (str "Enter")
    then withUi app (ChatWindow.handleSendMessage hc inputValue (ui app))
    else app in
  let app2 :=
    if jsstring_eqb (key e) (str "Escape")
    then if isListening then handleVoiceToggle hw app1
         else if truthy inputValue
              then withUi app1 (setInputValue (ui app1) [])
              else app1
    else app1 in
  if jsstring_eqb (key e) (str " ") && negb (inputFocused e)
  then handleVoiceToggle hw app2
  else app2.

(** Truthiness of a value that is a string or [null]. *)
Definition nullableTruthy (o : option jsstring) : bool :=
  match o with Some v => truthy v | None => false end.

(** [getCurrentStatus()] *)
Definition getCurrentStatus (app : App) : jsstring :=
  if nullableTruthy (ChatState.error (ChatWindow.chatState (ui app)))
  then str "error"
  else if Widget.isSpeaking (hook app) then str "speaking"
  else if Widget.isListening (hook app) then str "listening"
  else if ChatWindow.isLoading (ui app) then str "processing"
  else if Widget.isConnected (hook app) then str "connected"
  else str "idle".

(** What happens to the timeline: a send, or a reply timer firing. *)
Inductive ChatEvent :=
| Send (content : jsstring)
| TimerFires.

Definition chatStep (h : ChatWindow.Host) (ev : ChatEvent)
    (st : ChatWindow.State) : ChatWindow.State :=
  match ev with
  | Send content => ChatWindow.handleSendMessage h content st
  | TimerFires => ChatWindow.replyTimerFires h st
  end.

Fixpoint chatRun (evs : list (ChatWindow.Host * ChatEvent))
    (st : ChatWindow.State) : ChatWindow.State :=
  match evs with
  | [] => st
  | (h, ev) :: rest => chatRun rest (chatStep h ev st)
  end.

End ChatController.

(* ------------------------------------------------------------------------- *)
(** ** Sample inputs *)

Module Samples.

Definition logHost (n : nat) : ErrorLogger.Host :=
  {| ErrorLogger.randomUUID := str "uuid-" ++ ofNat n;
     ErrorLogger.nowISO := str "2025-01-01T00:00:00.000Z";
     ErrorLogger.window_href := Some (str "http://localhost:5173/");
     ErrorLogger.navigator_userAgent := None |}.

(** 1001 calls cycling through the five entry points. *)
Definition logCalls : list (ErrorLogger.Host * ErrorLogger.Call) :=
  map (fun n =>
         (logHost n,
          match Nat.modulo n 5 with
          | 0 => ErrorLogger.CallCreateLogEntry ErrorLogger.INFO (ofNat n) JNull None
          | 1 => ErrorLogger.CallError (ofNat n) JNull None
          | 2 => ErrorLogger.CallWarn (ofNat n) JNull None
          | 3 => ErrorLogger.CallInfo (ofNat n) JNull None
          | _ => ErrorLogger.CallDebug (ofNat n) JNull None
          end))
      (seq 1 1001).

Definition chatHost (n : nat) : ChatWindow.Host :=
  {| ChatWindow.randomUUID := str "uuid-" ++ ofNat n;
     ChatWindow.clock := fun k => (1700000000000 + Z.of_nat n + Z.of_nat k)%Z;
     ChatWindow.randomIndex := Nat.modulo n 5 |}.

Definition widgetElement : Dom.element :=
  {| Dom.node_id := 0; Dom.tagName := str "elevenlabs-convai";
     Dom.attributes := [(str "agent-id", str "agent_7601k23b460aeejb2pvyfcvw6atk")] |}.

Definition documentWithWidget : Dom.document :=
  {| Dom.next_id := 1; Dom.head := []; Dom.body := [widgetElement] |}.

Definition widgetHost (doc : Dom.document) : Widget.Host :=
  {| Widget.document := doc;
     Widget.clock := fun k => (1700000000000 + Z.of_nat k)%Z |}.

End Samples.

Module MoreSamples.
Import Types.

(** Production traffic: the four wrappers and a clear, over and over. *)
Definition productionOps : list (ErrorLogger.Host * LoggerQueries.Op) :=
  map (fun n =>
         (Samples.logHost n,
          match Nat.modulo n 5 with
          | 0 => LoggerQueries.OpCall (ErrorLogger.CallDebug (ofNat n) JNull None)
          | 1 => LoggerQueries.OpCall (ErrorLogger.CallError (ofNat n) JNull None)
          | 2 => LoggerQueries.OpCall (ErrorLogger.CallWarn (ofNat n) JNull None)
          | 3 => LoggerQueries.OpCall (ErrorLogger.CallInfo (ofNat n) JNull None)
          | _ => LoggerQueries.OpClearLogs
          end))
      (seq 1 40).

Definition networkError (now : Z) : AppError.t :=
  createAppError now NETWORK_ERROR (str "network down") None true.

Definition microphoneError (now : Z) : AppError.t :=
  createAppError now MICROPHONE_ACCESS_DENIED (str "microphone blocked") None false.

Definition escapeKey : ChatController.KeyEvent :=
  {| ChatController.ctrlKey := false; ChatController.metaKey := false;
     ChatController.key := str "Escape"; ChatController.inputFocused := true |}.

Definition spaceKey (focused : bool) : ChatController.KeyEvent :=
  {| ChatController.ctrlKey := false; ChatController.metaKey := false;
     ChatController.key := str " "; ChatController.inputFocused := focused |}.

Definition ctrlEnter : ChatController.KeyEvent :=
  {| ChatController.ctrlKey := true; ChatController.metaKey := false;
     ChatController.key := str "Enter"; ChatController.inputFocused := true |}.

(** An app whose input holds a draft. *)
Definition appWithDraft (draft : jsstring) : ChatController.App :=
  {| ChatController.ui := ChatController.setInputValue ChatWindow.initialState draft;
     ChatController.hook := Widget.initialHook |}.

(** A connected app that is listening. *)
Definition listeningApp (draft : jsstring) : ChatController.App :=
  {| ChatController.ui := ChatController.setInputValue ChatWindow.initialState draft;
     ChatController.hook :=
       Widget.hook
         (fst (Widget.startVoiceInput
                 (Samples.widgetHost Samples.documentWithWidget)
                 (Widget.connect (Samples.widgetHost Samples.documentWithWidget)
                    Widget.initialWorld))) |}.

(** The listening app as it is rendered: the sync effect has run. *)
Definition syncedListeningApp (draft : jsstring) : ChatController.App :=
  ChatController.syncChatState (listeningApp draft).

(** A hook in a call that holds an error: a call started, then the widget
    reported an error with a message. *)
Definition inCallWithError : Widget.World :=
  Widget.handleWidgetError (Samples.widgetHost Samples.documentWithWidget)
    (str "stream lost")
    (Widget.handleConversationStart
       (Widget.connect (Samples.widgetHost Samples.documentWithWidget)
          Widget.initialWorld)).

(** The same error held with no call active. *)
Definition idleWithError : Widget.World :=
  Widget.handleWidgetError (Samples.widgetHost Samples.documentWithWidget)
    (str "stream lost") Widget.initialWorld.

End MoreSamples.

(* ========================================================================= *)
(** * Properties *)

(* ------------------------------------------------------------------------- *)
(** ** Arrays: the last [n] elements *)

Section SliceFromEnd.
Variable A : Type.
Implicit Types l a b : list A.

Lemma sliceFromEnd_short n l : length l <= n -> sliceFromEnd n l = l.
Proof.
  intros Hle. destruct n as [|k]; [reflexivity|].
  unfold sliceFromEnd. replace (length l - S k) with 0 by lia. reflexivity.
Qed.

Lemma sliceFromEnd_length n l : 0 < n -> length (sliceFromEnd n l) = Nat.min n (length l).
Proof.
  intros Hn. destruct n as [|k]; [lia|].
  unfold sliceFromEnd. rewrite length_skipn. lia.
Qed.

Lemma sliceFromEnd_app_long n a b :
  0 < n -> n <= length b -> sliceFromEnd n (a ++ b) = sliceFromEnd n b.
Proof.
  intros Hn Hb. destruct n as [|k]; [lia|].
  unfold sliceFromEnd. rewrite length_app, skipn_app.
  rewrite skipn_all2 by lia. simpl.
  f_equal. lia.
Qed.

Lemma sliceFromEnd_app_absorb n a b :
  0 < n -> sliceFromEnd n (sliceFromEnd n a ++ b) = sliceFromEnd n (a ++ b).
Proof.
  intros Hn. destruct (Nat.le_gt_cases (length a) n) as [Hs|Hl].
  - now rewrite sliceFromEnd_short with (l := a).
  - assert (Hk : length (sliceFromEnd n a) = n)
      by (rewrite sliceFromEnd_length by assumption; lia).
    assert (Hsplit : a = firstn (length a - n) a ++ sliceFromEnd n a).
    { destruct n as [|k]; [lia|]. unfold sliceFromEnd.
      now rewrite firstn_skipn. }
    rewrite Hsplit at 2. rewrite <- app_assoc.
    rewrite (@sliceFromEnd_app_long n (firstn (length a - n) a) (sliceFromEnd n a ++ b));
      [reflexivity|assumption|].
    rewrite length_app. lia.
Qed.

End SliceFromEnd.

(* ------------------------------------------------------------------------- *)
(** ** Strings: [trim], [includes] *)

Section Trim.

Lemma trimStart_nil_iff s : trimStart s = [] <-> isBlank s = true.
Proof.
  induction s as [|c rest IH]; simpl; [tauto|].
  destruct (isWhiteSpace c); simpl; [exact IH|].
  split; discriminate.
Qed.

Lemma trimStart_decompose s :
  exists p, s = p ++ trimStart s /\ isBlank p = true.
Proof.
  induction s as [|c rest [p [Hs Hp]]]; simpl.
  - now exists [].
  - destruct (isWhiteSpace c) eqn:Hc.
    + exists (c :: p). simpl. rewrite Hc, Hp. split; [now f_equal|reflexivity].
    + now exists [].
Qed.

Lemma trimStart_head s :
  match trimStart s with [] => True | c :: _ => isWhiteSpace c = false end.
Proof.
  induction s as [|c rest IH]; simpl; [exact I|].
  destruct (isWhiteSpace c) eqn:Hc; [exact IH|exact Hc].
Qed.

Lemma trimStart_fixed s :
  match s with [] => True | c :: _ => isWhiteSpace c = false end ->
  trimStart s = s.
Proof. destruct s as [|c rest]; simpl; [reflexivity|]. now intros ->. Qed.

Lemma isBlank_app a b : isBlank (a ++ b) = isBlank a && isBlank b.
Proof. apply forallb_app. Qed.

Lemma isBlank_rev a : isBlank (rev a) = isBlank a.
Proof.
  induction a as [|c rest IH]; simpl; [reflexivity|].
  rewrite isBlank_app, IH. simpl. rewrite andb_true_r. apply andb_comm.
Qed.

(** [trim] gives the empty string exactly on blank strings. *)
Lemma truthy_trim s : truthy (trim s) = negb (isBlank s).
Proof.
  unfold trim, trimEnd.
  destruct (trimStart_decompose s) as [p [Hs Hp]].
  destruct (isBlank s) eqn:Hb; simpl.
  - apply trimStart_nil_iff in Hb. now rewrite Hb.
  - assert (Ht : isBlank (trimStart s) = false).
    { rewrite Hs, isBlank_app, Hp in Hb. exact Hb. }
    destruct (trimStart (rev (trimStart s))) as [|c u] eqn:Hu.
    + apply trimStart_nil_iff in Hu. rewrite isBlank_rev in Hu. congruence.
    + simpl. destruct (rev u ++ [c]) eqn:Hr; [now destruct (rev u)|reflexivity].
Qed.

Lemma trimEnd_decompose s :
  exists q, s = trimEnd s ++ q /\ isBlank q = true.
Proof.
  unfold trimEnd. destruct (trimStart_decompose (rev s)) as [p [Hs Hp]].
  exists (rev p). rewrite isBlank_rev. split; [|exact Hp].
  rewrite <- rev_app_distr, <- Hs. now rewrite rev_involutive.
Qed.

(** Trimming twice is trimming once. *)
Lemma trim_idempotent s : trim (trim s) = trim s.
Proof.
  assert (Hend : forall t, trimEnd (trimEnd t) = trimEnd t).
  { intros t. unfold trimEnd. rewrite rev_involutive.
    now rewrite (trimStart_fixed _ (trimStart_head (rev t))). }
  unfold trim at 1.
  assert (Hstart : trimStart (trim s) = trim s).
  { apply trimStart_fixed. unfold trim.
    pose proof (trimStart_head s) as Hhead.
    destruct (trimEnd_decompose (trimStart s)) as [q [Hq Hblank]].
    destruct (trimEnd (trimStart s)) as [|c u] eqn:Hu; [exact I|].
    rewrite Hq in Hhead. exact Hhead. }
  rewrite Hstart. apply Hend.
Qed.

Example trim_Hello : trim (str "  Hello world  ") = str "Hello world".
Proof. reflexivity. Qed.

Example trim_line_ends : trim ([9; 160; 8195; 65279]%N ++ str "ok" ++ [13; 10]%N) = str "ok".
Proof. reflexivity. Qed.

Example includes_fetch : includes (str "Failed to fetch") (str "fetch") = true.
Proof. reflexivity. Qed.

Example includes_is_case_sensitive :
  includes (str "Microphone access denied") (str "microphone") = false.
Proof. reflexivity. Qed.

Example ofNat_1000 : ofNat 1000 = str "1000".
Proof. reflexivity. Qed.

End Trim.

(* ------------------------------------------------------------------------- *)
(** ** ChatWindow: sending a text message *)

Section SendMessage.
Import Types ChatWindow.

Lemma createChatMessage_ok uuid now content sender type :
  truthy content = true ->
  Utils.createChatMessage uuid now content sender type
  = Ok (createMessage uuid now (trim content) sender type).
Proof.
  intros Ht. unfold Utils.createChatMessage. rewrite Ht.
  destruct sender, type; reflexivity.
Qed.

Lemma responses_pick k :
  k < 5 ->
  exists r, nth_error responses k = Some r /\ truthy r = true /\ trim r = r.
Proof.
  intros Hk.
  destruct k as [|[|[|[|[|k]]]]]; try lia;
    (eexists; split; [reflexivity|split; vm_compute; reflexivity]).
Qed.

Lemma handleSendMessage_nonblank h content st :
  isBlank content = false ->
  handleSendMessage h content st
  = {| chatState :=
         setMessages (chatState st)
           (ChatState.messages (chatState st)
            ++ [createMessage (randomUUID h) (clock h 0) (trim content) user text]);
       inputValue := [];
       isLoading := true;
       pendingReplies := S (pendingReplies st);
       provider := provider st |}.
Proof.
  intros Hb. unfold handleSendMessage.
  assert (Ht : truthy (trim content) = true) by (now rewrite truthy_trim, Hb).
  rewrite Ht. simpl. rewrite createChatMessage_ok by exact Ht.
  now rewrite trim_idempotent.
Qed.

Lemma replyTimerFires_reply h st pending :
  pendingReplies st = S pending ->
  randomIndex h < 5 ->
  exists r,
    In r responses
    /\ replyTimerFires h st
       = {| chatState :=
              setMessages (chatState st)
                (ChatState.messages (chatState st)
                 ++ [createMessage (randomUUID h) (clock h 0) r assistant text]);
            inputValue := inputValue st;
            isLoading := false;
            pendingReplies := pending;
            provider := provider st |}.
Proof.
  intros Hp Hk. destruct (responses_pick Hk) as (r & Hnth & Htruthy & Htrim).
  exists r. split; [eapply nth_error_In; exact Hnth|].
  unfold replyTimerFires. rewrite Hp, Hnth.
  rewrite createChatMessage_ok by exact Htruthy. now rewrite Htrim.
Qed.

(** C1, as stated, at the input "Hello": the message appended by the send
    does not have the status [sending]. *)
Lemma sendText_Hello_is_not_sending :
  ~ (exists m,
        ChatState.messages
          (chatState (handleSendMessage (Samples.chatHost 1) (str "Hello") initialState))
        = [m]
        /\ Message.sender m = user
        /\ Message.type m = text
        /\ Message.status m = sending).
Proof.
  rewrite handleSendMessage_nonblank by reflexivity. simpl.
  intros (m & Hm & _ & _ & Hs).
  injection Hm as <-. discriminate Hs.
Qed.

(** C1, amended. A blank content changes nothing. Any other content appends
    exactly one user/text message, created with the status [sent] and the
    trimmed content, clears the input and sets the loading flag; when the
    reply timer fires, exactly one assistant/text message with the status
    [sent] is appended after it and the user message is as it was, so the
    timeline has grown by two. *)
Theorem sendText_timeline (h1 h2 : Host) (content : jsstring) (st : State) :
  (isBlank content = true -> handleSendMessage h1 content st = st)
  /\ (isBlank content = false ->
      let st1 := handleSendMessage h1 content st in
      exists m,
        ChatState.messages (chatState st1)
        = ChatState.messages (chatState st) ++ [m]
        /\ Message.sender m = user
        /\ Message.type m = text
        /\ Message.status m = sent
        /\ Message.content m = trim content
        /\ inputValue st1 = []
        /\ isLoading st1 = true
        /\ (randomIndex h2 < 5 ->
            let st2 := replyTimerFires h2 st1 in
            exists r,
              ChatState.messages (chatState st2)
              = ChatState.messages (chatState st) ++ [m; r]
              /\ Message.sender r = assistant
              /\ Message.type r = text
              /\ Message.status r = sent
              /\ In (Message.content r) responses
              /\ isLoading st2 = false
              /\ length (ChatState.messages (chatState st2))
                 = length (ChatState.messages (chatState st)) + 2)).
Proof.
  split.
  - intros Hb. unfold handleSendMessage. now rewrite truthy_trim, Hb.
  - intros Hb st1. unfold st1; clear st1.
    rewrite handleSendMessage_nonblank by exact Hb.
    exists (createMessage (randomUUID h1) (clock h1 0) (trim content) user text).
    cbn [chatState setMessages ChatState.messages inputValue isLoading].
    do 7 (split; [reflexivity|]).
    intros Hk.
    match goal with
    | |- context [replyTimerFires h2 ?s] =>
        destruct (@replyTimerFires_reply h2 s (pendingReplies st) eq_refl Hk)
          as (r & Hin & Hst2)
    end.
    exists (createMessage (randomUUID h2) (clock h2 0) r assistant text).
    rewrite Hst2.
    cbn [chatState setMessages ChatState.messages isLoading].
    rewrite <- app_assoc.
    split; [reflexivity|]. do 3 (split; [reflexivity|]).
    split; [exact Hin|]. split; [reflexivity|].
    rewrite length_app. cbn [app length]. reflexivity.
Qed.

Lemma sendText_timeline_witness :
  isBlank (str "Hello") = false
  /\ isBlank (str "   ") = true
  /\ randomIndex (Samples.chatHost 2) < 5
  /\ handleSendMessage (Samples.chatHost 1) (str "   ") initialState
     = initialState
  /\ length (ChatState.messages
               (chatState
                  (replyTimerFires (Samples.chatHost 2)
                     (handleSendMessage (Samples.chatHost 1) (str "Hello")
                        initialState)))) = 2.
Proof.
  assert (Hb : isBlank (str "Hello") = false) by reflexivity.
  assert (Hw : isBlank (str "   ") = true) by reflexivity.
  assert (Hk : randomIndex (Samples.chatHost 2) < 5) by (vm_compute; lia).
  split; [exact Hb|]. split; [exact Hw|]. split; [exact Hk|]. split.
  - destruct (sendText_timeline (Samples.chatHost 1) (Samples.chatHost 2)
                (str "   ") initialState) as [Hblank _].
    exact (Hblank Hw).
  - destruct (sendText_timeline (Samples.chatHost 1) (Samples.chatHost 2)
                (str "Hello") initialState) as [_ Hsend].
    destruct (Hsend Hb) as (m & _ & _ & _ & _ & _ & _ & _ & Hreply).
    destruct (Hreply Hk) as (r & _ & _ & _ & _ & _ & _ & Hlen).
    exact Hlen.
Defined.

End SendMessage.

(* ------------------------------------------------------------------------- *)
(** ** ErrorLogger: the bounded buffer *)

Section LoggerProperties.
Import ErrorLogger.

(** What [createLogEntry] keeps is the last [maxLogs] entries of the pushed
    array, also when nothing had to be dropped. *)
Ltac kept_is_slice :=
  match goal with
  | |- (if ?b then _ else _) = _ =>
      let Hcmp := fresh "Hcmp" in
      destruct b eqn:Hcmp;
      [reflexivity
      |apply Nat.ltb_ge in Hcmp; now rewrite sliceFromEnd_short]
  end.

Lemma createLogEntry_logs h lvl msg det ctx lg :
  logs (fst (createLogEntry h lvl msg det ctx lg))
  = sliceFromEnd (maxLogs lg) (logs lg ++ [snd (createLogEntry h lvl msg det ctx lg)]).
Proof. unfold createLogEntry; simpl. kept_is_slice. Qed.

Lemma run_call_config h c lg :
  maxLogs (fst (run_call h c lg)) = maxLogs lg
  /\ isProduction (fst (run_call h c lg)) = isProduction lg.
Proof.
  destruct c; simpl; unfold error, warn, info, debug; simpl;
    try destruct (isProduction lg) eqn:Hp; simpl; auto.
Qed.

Lemma run_call_cases h c lg :
  match snd (run_call h c lg) with
  | Some e =>
      returns_own_entry (isProduction lg) (h, c) (Some e)
      /\ logs (fst (run_call h c lg)) = sliceFromEnd (maxLogs lg) (logs lg ++ [e])
  | None =>
      returns_own_entry (isProduction lg) (h, c) None
      /\ fst (run_call h c lg) = lg
  end.
Proof.
  destruct c; simpl; unfold error, warn, info, debug; simpl;
    try (destruct (isProduction lg) eqn:Hp; simpl);
    repeat split; auto; kept_is_slice.
Qed.

Lemma run_calls_logs cs : forall lg,
  let R := run_calls cs lg in
  maxLogs (fst R) = maxLogs lg
  /\ isProduction (fst R) = isProduction lg
  /\ Forall2 (returns_own_entry (isProduction lg)) cs (snd R)
  /\ (returned_entries (snd R) = [] -> logs (fst R) = logs lg)
  /\ (0 < maxLogs lg -> returned_entries (snd R) <> [] ->
      logs (fst R) = sliceFromEnd (maxLogs lg) (logs lg ++ returned_entries (snd R))).
Proof.
  induction cs as [|[h c] rest IH]; intros lg; simpl.
  - repeat split; auto. intros _ Hne; now elim Hne.
  - pose proof (run_call_cases h c lg) as Hcall.
    pose proof (run_call_config h c lg) as [Hmax Hprod].
    destruct (run_call h c lg) as [lg1 r] eqn:Hrun; simpl in *.
    specialize (IH lg1).
    destruct (run_calls rest lg1) as [lg2 rs] eqn:Hrest; simpl in *.
    destruct IH as (IHmax & IHprod & IHret & IHnil & IHcons).
    rewrite Hmax in *. rewrite Hprod in *.
    destruct r as [e|]; destruct Hcall as [Hown Hlogs].
    + repeat split; auto; [discriminate|].
      intros Hpos _.
      destruct (returned_entries rs) as [|e' es] eqn:Hes.
      * rewrite IHnil by reflexivity. exact Hlogs.
      * rewrite IHcons by (auto; discriminate).
        rewrite Hlogs, sliceFromEnd_app_absorb by assumption.
        now rewrite <- app_assoc.
    + subst lg1. repeat split; auto.
Qed.

Lemma returned_entries_length production cs rs :
  Forall2 (returns_own_entry production) cs rs ->
  length (returned_entries rs) = length (log_calls production cs).
Proof.
  unfold log_calls. induction 1 as [|hc r cs rs Hown _ IH]; simpl; [reflexivity|].
  destruct r as [e|]; simpl in Hown.
  - destruct Hown as [Hr _]. rewrite Hr. simpl. now f_equal.
  - rewrite Hown. exact IH.
Qed.

(** Outside production mode, and in any mode when no call is [debug], every
    call of the sequence logs. *)
Lemma log_calls_all production cs :
  production = false \/ forallb (fun hc => negb (is_debug (snd hc))) cs = true ->
  log_calls production cs = cs.
Proof.
  unfold log_calls. intros H.
  induction cs as [|[h c] rest IH]; simpl; [reflexivity|].
  assert (Hc : reaches_log production c = true).
  { destruct H as [->|Hall]; [destruct c; reflexivity|].
    simpl in Hall. apply andb_true_iff in Hall as [Hhd _].
    destruct c; simpl in *; congruence. }
  rewrite Hc. f_equal. apply IH.
  destruct H as [->|Hall]; [now left|right].
  simpl in Hall. now apply andb_true_iff in Hall as [_ Htl].
Qed.

(** C4. With the capacity 1000 set by the constructor: every call returns
    the entry it built ([debug] in production mode does not log and returns
    null). After a sequence in which more than 1000 calls logged (so after
    any sequence of more than 1000 calls outside production mode or without
    [debug] calls) the buffer is exactly the last 1000 entries returned, in
    call order. Whenever at least one call logged, the buffer is the last
    1000 of the previous contents followed by the returned entries. *)
Theorem log_ring_buffer (lg : Logger) (cs : list (Host * Call)) :
  maxLogs lg = 1000 ->
  let lg' := fst (run_calls cs lg) in
  let rets := snd (run_calls cs lg) in
  Forall2 (returns_own_entry (isProduction lg)) cs rets
  /\ (returned_entries rets <> [] ->
      logs lg' = sliceFromEnd 1000 (logs lg ++ returned_entries rets))
  /\ (1000 < length (log_calls (isProduction lg) cs) ->
      length (returned_entries rets) = length (log_calls (isProduction lg) cs)
      /\ logs lg' = sliceFromEnd 1000 (returned_entries rets)
      /\ length (logs lg') = 1000)
  /\ (isProduction lg = false
      \/ forallb (fun hc => negb (is_debug (snd hc))) cs = true ->
      1000 < length cs ->
      length (returned_entries rets) = length cs
      /\ logs lg' = sliceFromEnd 1000 (returned_entries rets)
      /\ length (logs lg') = 1000).
Proof.
  intros Hmax lg' rets.
  destruct (run_calls_logs cs lg) as (_ & _ & Hret & _ & Hcons).
  fold rets in Hret, Hcons. fold lg' in Hcons. rewrite Hmax in Hcons.
  pose proof (returned_entries_length Hret) as Hlen.
  assert (Hmain : 1000 < length (log_calls (isProduction lg) cs) ->
                  length (returned_entries rets)
                  = length (log_calls (isProduction lg) cs)
                  /\ logs lg' = sliceFromEnd 1000 (returned_entries rets)
                  /\ length (logs lg') = 1000).
  { intros Hlong. rewrite <- Hlen in Hlong.
    assert (Hne : returned_entries rets <> [])
      by (destruct (returned_entries rets); [simpl in Hlong; lia|discriminate]).
    assert (Hlogs : logs lg' = sliceFromEnd 1000 (returned_entries rets)).
    { rewrite Hcons by (lia || exact Hne).
      apply sliceFromEnd_app_long; lia. }
    repeat split; [exact Hlen|exact Hlogs|].
    rewrite Hlogs, sliceFromEnd_length by lia. lia. }
  split; [exact Hret|]. split; [|split; [exact Hmain|]].
  - intros Hne. apply Hcons; [lia|exact Hne].
  - intros Hall Hlong.
    pose proof (@log_calls_all (isProduction lg) cs Hall) as Heq.
    rewrite Heq in Hmain. exact (Hmain Hlong).
Qed.

(** In development mode all 1001 sample calls log and the buffer holds the
    last 1000 entries; in production mode the [debug] calls among them do
    not log. *)
Lemma log_ring_buffer_witness :
  let lg := construct false (Samples.logHost 0) in
  let R := run_calls Samples.logCalls lg in
  maxLogs lg = 1000
  /\ isProduction lg = false
  /\ 1000 < length Samples.logCalls
  /\ logs (fst R) = sliceFromEnd 1000 (returned_entries (snd R))
  /\ length (logs (fst R)) = 1000.
Proof.
  cbv zeta.
  assert (Hmax : maxLogs (construct false (Samples.logHost 0)) = 1000)
    by reflexivity.
  assert (Hdev : isProduction (construct false (Samples.logHost 0)) = false)
    by reflexivity.
  assert (Hlong : 1000 < length Samples.logCalls)
    by (apply Nat.ltb_lt; vm_compute; reflexivity).
  destruct (log_ring_buffer (construct false (Samples.logHost 0))
              Samples.logCalls Hmax) as (_ & _ & _ & Hall).
  destruct (Hall (or_introl Hdev) Hlong) as (_ & Hlogs & Hlen).
  split; [exact Hmax|]. split; [exact Hdev|]. split; [exact Hlong|].
  split; [exact Hlogs|exact Hlen].
Defined.

Example debug_in_production_does_not_log :
  let lg := construct true (Samples.logHost 0) in
  run_call (Samples.logHost 1) (CallDebug (str "probe") JNull None) lg
  = (lg, None).
Proof. reflexivity. Qed.

Example clearLogs_after_construct :
  let '(lg, cleared) :=
    clearLogs (Samples.logHost 1) (construct false (Samples.logHost 0)) in
  cleared = 1
  /\ map message (logs lg) = [str "Cleared 1 log entries"].
Proof. split; reflexivity. Qed.

(** C10. [clearLogs] returns the number of entries it removed and leaves
    exactly one entry in the buffer: the INFO entry that records the clear. *)
Theorem clearLogs_leaves_one_entry (h : Host) (lg : Logger) :
  snd (clearLogs h lg) = length (logs lg)
  /\ exists e,
      logs (fst (clearLogs h lg)) = [e]
      /\ level e = INFO
      /\ message e
         = str "Cleared " ++ ofNat (length (logs lg)) ++ str " log entries"
      /\ context e = Some (str "Log Management")
      /\ id e = randomUUID h.
Proof.
  unfold clearLogs, info, createLogEntry; simpl.
  split; [reflexivity|].
  eexists; split.
  - destruct (maxLogs lg) as [|[|k]]; simpl; reflexivity.
  - simpl. repeat split.
Qed.

End LoggerProperties.

(* ------------------------------------------------------------------------- *)
(** ** ErrorContext: classification and recoverability *)

Section HandleError.
Import Types ErrorContext.

Example classify_widget_not_found :
  classify (str "ElevenLabs widget not found") = WIDGET_INITIALIZATION_ERROR.
Proof. reflexivity. Qed.

Example classify_getUserMedia :
  classify (str "getUserMedia failed on network") = MICROPHONE_ACCESS_DENIED.
Proof. reflexivity. Qed.

Lemma ErrorType_eqb_eq a b : ErrorType_eqb a b = true <-> a = b.
Proof. destruct a, b; simpl; split; congruence. Qed.

(** C8. For an [Error] instance, [handleError] adds exactly one error whose
    kind is [classify] of the message alone (the same for every context and
    time), and whose [recoverable] flag is false exactly for the kind
    [MICROPHONE_ACCESS_DENIED]. *)
Theorem handleError_recoverable (now now' : Z) (message context context' : jsstring)
    (p : Provider) :
  let appError := toAppError now (ErrorInstance message) context in
  errors (state (handleError now (ErrorInstance message) context p))
  = errors (state p) ++ [appError]
  /\ AppError.type appError = classify message
  /\ AppError.type (toAppError now' (ErrorInstance message) context')
     = AppError.type appError
  /\ (AppError.recoverable appError = false
      <-> AppError.type appError = MICROPHONE_ACCESS_DENIED)
  /\ (AppError.recoverable appError = true
      <-> AppError.type appError <> MICROPHONE_ACCESS_DENIED).
Proof.
  simpl. repeat split; try reflexivity.
  - intros H. apply negb_false_iff in H. now apply ErrorType_eqb_eq.
  - intros H. rewrite H. reflexivity.
  - intros H Heq. rewrite Heq in H. discriminate H.
  - intros H. apply negb_true_iff.
    destruct (ErrorType_eqb (classify message) MICROPHONE_ACCESS_DENIED) eqn:E;
      [|reflexivity].
    apply ErrorType_eqb_eq in E. contradiction.
Qed.

End HandleError.

(* ------------------------------------------------------------------------- *)
(** ** The widget hook *)

Section WidgetHook.
Import Types Widget.

(** C2, as stated: on a connected manager [connect()] is not a no-op. With
    the element in the document it clears the error a connected manager
    holds; with the element gone it sets an error. *)
Lemma connect_on_connected_manager_changes_it :
  let present := Samples.widgetHost Samples.documentWithWidget in
  let absent := Samples.widgetHost Dom.emptyDocument in
  let connected := connect present initialWorld in
  let reported := handleWidgetError present (str "boom") connected in
  isConnected (hook connected) = true
  /\ isConnected (hook reported) = true
  /\ connect present reported <> reported
  /\ connect absent connected <> connected.
Proof.
  cbv zeta. repeat split.
  - intros H. apply (f_equal (fun w => error (hook w))) in H. discriminate H.
  - intros H. apply (f_equal (fun w => error (hook w))) in H. discriminate H.
Qed.

(** C2, amended. [connect()] does not look at [isConnected]. When the
    element is in the document it sets [isConnected], clears the error,
    keeps the element and changes nothing else, so doing it again changes
    nothing more. When the element is absent it sets the hook's error to a
    recoverable [WIDGET_INITIALIZATION_ERROR], reports one error of that kind
    through [handleError], and leaves the flags as they were. *)
Theorem connect_effect (h : Host) (w : World) :
  (forall widget, locateWidget h = Some widget ->
     hook (connect h w)
     = {| isConnected := true; isInCall := isInCall (hook w);
          isListening := isListening (hook w);
          isSpeaking := isSpeaking (hook w);
          error := None; widgetStatus := widgetStatus (hook w);
          widgetRef := Some widget |}
     /\ provider (connect h w) = provider w
     /\ connect h (connect h w) = connect h w)
  /\ (locateWidget h = None ->
      exists appError reported,
        hook (connect h w)
        = {| isConnected := isConnected (hook w); isInCall := isInCall (hook w);
             isListening := isListening (hook w);
             isSpeaking := isSpeaking (hook w);
             error := Some appError; widgetStatus := widgetStatus (hook w);
             widgetRef := widgetRef (hook w) |}
        /\ AppError.type appError = WIDGET_INITIALIZATION_ERROR
        /\ AppError.recoverable appError = true
        /\ ErrorContext.errors (ErrorContext.state (provider (connect h w)))
           = ErrorContext.errors (ErrorContext.state (provider w)) ++ [reported]
        /\ AppError.type reported = WIDGET_INITIALIZATION_ERROR).
Proof.
  split.
  - intros widget Hw. unfold connect. rewrite Hw. simpl. auto.
  - intros Hw. unfold connect. rewrite Hw. simpl.
    do 2 eexists. repeat split.
Qed.

Lemma connect_effect_witness :
  locateWidget (Samples.widgetHost Samples.documentWithWidget)
  = Some Samples.widgetElement
  /\ locateWidget (Samples.widgetHost Dom.emptyDocument) = None
  /\ isConnected
       (hook (connect (Samples.widgetHost Samples.documentWithWidget) initialWorld))
     = true
  /\ isConnected (hook (connect (Samples.widgetHost Dom.emptyDocument) initialWorld))
     = false.
Proof.
  assert (Hp : locateWidget (Samples.widgetHost Samples.documentWithWidget)
               = Some Samples.widgetElement) by reflexivity.
  assert (Ha : locateWidget (Samples.widgetHost Dom.emptyDocument) = None)
    by reflexivity.
  split; [exact Hp|]. split; [exact Ha|]. split.
  - destruct (connect_effect (Samples.widgetHost Samples.documentWithWidget)
                initialWorld) as [Hpresent _].
    destruct (Hpresent _ Hp) as (Hhook & _ & _). rewrite Hhook. reflexivity.
  - destruct (connect_effect (Samples.widgetHost Dom.emptyDocument)
                initialWorld) as [_ Habsent].
    destruct (Habsent Ha) as (appError & reported & Hhook & _). rewrite Hhook.
    reflexivity.
Defined.

(** C5, as stated: after [startVoiceInput] on the initial manager the error
    is set, and [disconnect()] resets it to null. *)
Lemma disconnect_clears_the_error :
  let failed := fst (startVoiceInput (Samples.widgetHost Dom.emptyDocument)
                       initialWorld) in
  error (hook failed) <> None
  /\ error (hook (disconnect failed)) = None.
Proof. cbv zeta. split; [discriminate|reflexivity]. Qed.

Lemma stepRendered_when_call_goes_on h a w :
  endsCall a && isInCall (hook w) = false ->
  stepRendered h a w = step h a w.
Proof.
  intros Hgo. unfold stepRendered, afterRender.
  destruct (isInCall (hook w)) eqn:Hin; [|reflexivity].
  rewrite andb_true_r in Hgo.
  assert (Hstill : isInCall (hook (step h a w)) = true).
  { destruct a as [status| | |msg| | | | | |]; simpl in *; try discriminate Hgo;
      try exact Hin; try reflexivity.
    - destruct status; simpl in *; try discriminate Hgo; try exact Hin;
        reflexivity.
    - unfold connect. destruct (locateWidget h); exact Hin.
    - unfold startVoiceInput. destruct (isConnected (hook w)); exact Hin.
    - unfold toggleVoiceInput, startVoiceInput, stopVoiceInput.
      destruct (isListening (hook w)); [exact Hin|].
      destruct (isConnected (hook w)); exact Hin. }
  now rewrite Hstill.
Qed.

Lemma stepRendered_when_call_ends h a w :
  endsCall a && isInCall (hook w) = true ->
  stepRendered h a w = disconnect (step h a w).
Proof.
  intros Hends. apply andb_true_iff in Hends as [Ha Hin].
  unfold stepRendered, afterRender. rewrite Hin.
  destruct a as [status| | |msg| | | | | |]; simpl in *; try discriminate Ha;
    try reflexivity.
  destruct status; simpl in *; try discriminate Ha; reflexivity.
Qed.

(** C5, amended. With the effect that follows each render taken into
    account: the error is left null by [clearError], and also by
    [disconnect], by the [connected] status event, by the start of a
    conversation and by a [connect] that finds the element; a call that ends
    an active call is followed by the [disconnect()] of the hook's effect
    cleanup and so leaves it null too. Every other call, made while an error
    is set, leaves an error set: the status events and the end of a
    conversation when no call is active, the in-call, listening, speaking and
    unknown status events, a widget error, a [connect] that does not find the
    element, and the three voice commands. *)
Theorem error_reset_exactly_by (h : Host) (a : Action) (w : World) :
  (resetsError h a w = true -> error (hook (stepRendered h a w)) = None)
  /\ (resetsError h a w = false ->
      error (hook w) <> None -> error (hook (stepRendered h a w)) <> None)
  /\ (endsCall a && isInCall (hook w) = false ->
      stepRendered h a w = step h a w).
Proof.
  split; [|split; [|apply stepRendered_when_call_goes_on]].
  - intros Hreset.
    destruct (endsCall a && isInCall (hook w)) eqn:Hends.
    + now rewrite stepRendered_when_call_ends.
    + rewrite stepRendered_when_call_goes_on by exact Hends.
      destruct a as [status| | |msg| | | | | |]; simpl in *;
        try discriminate Hreset; try reflexivity; try congruence.
      * destruct status; simpl in *; try congruence; reflexivity.
      * unfold connect. destruct (locateWidget h); [reflexivity|discriminate].
  - intros Hkeep Herr.
    assert (Hgo : endsCall a && isInCall (hook w) = false).
    { destruct a as [status| | |msg| | | | | |]; simpl in *;
        try discriminate Hkeep; try exact Hkeep; try reflexivity.
      destruct status; simpl in *; try discriminate Hkeep; try exact Hkeep;
        reflexivity. }
    rewrite stepRendered_when_call_goes_on by exact Hgo.
    destruct a as [status| | |msg| | | | | |]; simpl in *;
      try discriminate Hkeep; try exact Herr; try discriminate.
    + destruct status; simpl in *; try discriminate Hkeep; exact Herr.
    + unfold connect. destruct (locateWidget h); [discriminate Hkeep|].
      simpl. discriminate.
    + unfold startVoiceInput. destruct (isConnected (hook w)); simpl;
        [exact Herr|discriminate].
    + unfold toggleVoiceInput, startVoiceInput, stopVoiceInput.
      destruct (isListening (hook w)); simpl; [exact Herr|].
      destruct (isConnected (hook w)); simpl; [exact Herr|discriminate].
Qed.

Lemma error_reset_exactly_by_witness :
  let present := Samples.widgetHost Samples.documentWithWidget in
  let absent := Samples.widgetHost Dom.emptyDocument in
  error (hook MoreSamples.idleWithError) <> None
  /\ error (hook MoreSamples.inCallWithError) <> None
  /\ resetsError present ConversationEnd MoreSamples.idleWithError = false
  /\ error (hook (stepRendered present ConversationEnd MoreSamples.idleWithError))
     <> None
  /\ resetsError present ConversationEnd MoreSamples.inCallWithError = true
  /\ error (hook (stepRendered present ConversationEnd MoreSamples.inCallWithError))
     = None
  /\ resetsError absent Connect MoreSamples.idleWithError = false
  /\ error (hook (stepRendered absent Connect MoreSamples.idleWithError)) <> None
  /\ resetsError present Connect MoreSamples.idleWithError = true
  /\ error (hook (stepRendered present Connect MoreSamples.idleWithError)) = None.
Proof.
  cbv zeta.
  assert (Hidle : error (hook MoreSamples.idleWithError) <> None) by discriminate.
  assert (Hcall : error (hook MoreSamples.inCallWithError) <> None)
    by discriminate.
  split; [exact Hidle|]. split; [exact Hcall|].
  split; [reflexivity|]. split.
  { apply (error_reset_exactly_by
             (Samples.widgetHost Samples.documentWithWidget) ConversationEnd
             MoreSamples.idleWithError); [reflexivity|exact Hidle]. }
  split; [reflexivity|]. split.
  { apply (error_reset_exactly_by
             (Samples.widgetHost Samples.documentWithWidget) ConversationEnd
             MoreSamples.inCallWithError). reflexivity. }
  split; [reflexivity|]. split.
  { apply (error_reset_exactly_by (Samples.widgetHost Dom.emptyDocument) Connect
             MoreSamples.idleWithError); [reflexivity|exact Hidle]. }
  split; [reflexivity|].
  apply (error_reset_exactly_by
           (Samples.widgetHost Samples.documentWithWidget) Connect
           MoreSamples.idleWithError). reflexivity.
Defined.

Lemma step_keeps_exclusion h a w :
  isListening (hook w) && isSpeaking (hook w) = false ->
  isListening (hook (step h a w)) && isSpeaking (hook (step h a w)) = false.
Proof.
  intros Hinv.
  destruct a as [status| | |msg| | | | | |]; simpl; try exact Hinv;
    try reflexivity.
  - destruct status; simpl; try exact Hinv; reflexivity.
  - unfold connect. destruct (locateWidget h); simpl; exact Hinv.
  - unfold startVoiceInput. destruct (isConnected (hook w)); simpl;
      [reflexivity|exact Hinv].
  - unfold toggleVoiceInput, startVoiceInput, stopVoiceInput.
    destruct (isListening (hook w)); simpl; [reflexivity|].
    destruct (isConnected (hook w)); simpl; [reflexivity|exact Hinv].
Qed.

Lemma run_keeps_exclusion trace : forall w,
  isListening (hook w) && isSpeaking (hook w) = false ->
  isListening (hook (run trace w)) && isSpeaking (hook (run trace w)) = false.
Proof.
  induction trace as [|[h a] rest IH]; intros w Hinv; simpl; [exact Hinv|].
  apply IH. now apply step_keeps_exclusion.
Qed.

(** C6. In every state reached from the initial one by any sequence of status
    events, widget callbacks and commands, [isListening] and [isSpeaking] are
    not both true. *)
Theorem listening_speaking_exclusive (trace : list (Host * Action)) :
  isListening (hook (run trace initialWorld))
  && isSpeaking (hook (run trace initialWorld)) = false.
Proof. apply run_keeps_exclusion. reflexivity. Qed.

(** The same invariant with the effect that follows each render: the
    cleanup only ever adds a [disconnect()], which clears both flags. *)
Lemma runRendered_keeps_exclusion trace : forall w,
  isListening (hook w) && isSpeaking (hook w) = false ->
  isListening (hook (runRendered trace w))
  && isSpeaking (hook (runRendered trace w)) = false.
Proof.
  induction trace as [|[h a] rest IH]; intros w Hinv; simpl; [exact Hinv|].
  apply IH. unfold stepRendered, afterRender.
  destruct (isInCall (hook w) && negb (isInCall (hook (step h a w))));
    [reflexivity|now apply step_keeps_exclusion].
Qed.

(** C7. On a manager that is not connected, [startVoiceInput] returns false
    (it returns a value: no path of it throws) and leaves [isListening] as it
    was, hence false when it was false. *)
Theorem startVoiceInput_disconnected (h : Host) (w : World) :
  isConnected (hook w) = false ->
  snd (startVoiceInput h w) = false
  /\ isListening (hook (fst (startVoiceInput h w))) = isListening (hook w)
  /\ (isListening (hook w) = false ->
      isListening (hook (fst (startVoiceInput h w))) = false)
  /\ isConnected (hook (fst (startVoiceInput h w))) = false.
Proof.
  intros Hc. unfold startVoiceInput. rewrite Hc. simpl. auto.
Qed.

Lemma startVoiceInput_disconnected_witness :
  isConnected (hook initialWorld) = false
  /\ snd (startVoiceInput (Samples.widgetHost Dom.emptyDocument) initialWorld)
     = false
  /\ isListening
       (hook (fst (startVoiceInput (Samples.widgetHost Dom.emptyDocument)
                     initialWorld)))
     = false.
Proof.
  split; [reflexivity|].
  destruct (startVoiceInput_disconnected (Samples.widgetHost Dom.emptyDocument)
              initialWorld eq_refl) as (Hret & _ & Hfalse & _).
  split; [exact Hret|exact (Hfalse eq_refl)].
Defined.

(** C9. On a connected manager two [toggleVoiceInput] calls in a row bring
    [isListening] back to what it was. *)
Theorem toggleVoiceInput_twice (h1 h2 : Host) (w : World) :
  isConnected (hook w) = true ->
  isListening (hook (fst (toggleVoiceInput h2 (fst (toggleVoiceInput h1 w)))))
  = isListening (hook w).
Proof.
  intros Hc. unfold toggleVoiceInput, startVoiceInput, stopVoiceInput.
  destruct (isListening (hook w)) eqn:Hl; simpl.
  - rewrite Hc. reflexivity.
  - rewrite Hc. reflexivity.
Qed.

Lemma toggleVoiceInput_twice_witness :
  let h := Samples.widgetHost Samples.documentWithWidget in
  let connected := connect h initialWorld in
  isConnected (hook connected) = true
  /\ isListening (hook (fst (toggleVoiceInput h connected))) = true
  /\ isListening
       (hook (fst (toggleVoiceInput h (fst (toggleVoiceInput h connected)))))
     = isListening (hook connected).
Proof.
  cbv zeta. split; [reflexivity|]. split; [reflexivity|].
  apply (toggleVoiceInput_twice
           (Samples.widgetHost Samples.documentWithWidget)
           (Samples.widgetHost Samples.documentWithWidget)
           (connect (Samples.widgetHost Samples.documentWithWidget) initialWorld)).
  reflexivity.
Defined.

End WidgetHook.

(* ------------------------------------------------------------------------- *)
(** ** Loading the widget script *)

Section ScriptLoading.
Import Dom VoiceWidget.

Lemma embedScripts_appendToHead e d :
  length (embedScripts (appendToHead e d))
  = length (embedScripts d) + (if isEmbedScript e then 1 else 0).
Proof.
  unfold embedScripts, elements, appendToHead; simpl.
  rewrite !filter_app, !length_app. simpl.
  destruct (isEmbedScript e); simpl; lia.
Qed.

Lemma compactMount_adds_one d :
  length (embedScripts (fst (compactMount d))) = S (length (embedScripts d))
  /\ next_id (fst (compactMount d)) = S (next_id d)
  /\ node_id (snd (compactMount d)) = next_id d.
Proof.
  unfold compactMount, newScript, createElement. simpl.
  rewrite embedScripts_appendToHead. simpl.
  repeat split. unfold embedScripts, elements. simpl. lia.
Qed.

(** C3, on the compact component: each mount appends one more embed script,
    whatever the document holds, so two mounts in a row leave two more
    script tags in the document, made by two [createElement] calls. *)
Theorem compactMount_twice_injects_twice (d : document) :
  let first := compactMount d in
  let second := compactMount (fst first) in
  length (embedScripts (fst second)) = length (embedScripts d) + 2
  /\ next_id (fst second) = next_id d + 2
  /\ node_id (snd first) <> node_id (snd second)
  /\ isEmbedScript (snd first) = true
  /\ isEmbedScript (snd second) = true.
Proof.
  intros first second.
  destruct (compactMount_adds_one d) as (Hlen1 & Hid1 & Hnode1).
  destruct (compactMount_adds_one (fst first)) as (Hlen2 & Hid2 & Hnode2).
  fold first in Hlen1, Hid1, Hnode1. fold second in Hlen2, Hid2, Hnode2.
  repeat split; try reflexivity; lia.
Qed.

Example compactMount_twice_on_empty_document :
  map node_id
    (embedScripts (fst (compactMount (fst (compactMount emptyDocument)))))
  = [0; 1].
Proof. reflexivity. Qed.

(** The cleanup of the compact component takes its own script out again. *)
Example compactCleanup_removes_own_script :
  embedScripts
    (compactCleanup (snd (compactMount emptyDocument))
       (fst (compactMount emptyDocument)))
  = [].
Proof. reflexivity. Qed.

Lemma querySelector_embedScript d :
  querySelector isEmbedScript d = None <-> embedScripts d = [].
Proof.
  unfold querySelector, embedScripts.
  induction (elements d) as [|e rest IH]; simpl; [tauto|].
  destruct (isEmbedScript e); [split; discriminate|exact IH].
Qed.

Lemma loadScript_guarded d :
  embedScripts d <> [] -> loadScript d = (d, true).
Proof.
  intros Hne. unfold loadScript.
  destruct (querySelector isEmbedScript d) eqn:Hq; [reflexivity|].
  apply querySelector_embedScript in Hq. contradiction.
Qed.

Lemma loadScript_first d :
  embedScripts d = [] ->
  length (embedScripts (fst (loadScript d))) = 1
  /\ next_id (fst (loadScript d)) = S (next_id d).
Proof.
  intros Hnone. unfold loadScript.
  apply querySelector_embedScript in Hnone as Hq. rewrite Hq.
  unfold newScript, createElement. simpl.
  rewrite embedScripts_appendToHead. simpl.
  unfold embedScripts, elements in *. simpl. rewrite Hnone. auto.
Qed.

Lemma pageRun_guarded evs : forall pg,
  embedScripts (doc pg) <> [] -> doc (pageRun evs pg) = doc pg.
Proof.
  induction evs as [|ev rest IH]; intros pg Hne; simpl; [reflexivity|].
  destruct ev; simpl.
  - rewrite IH; simpl; rewrite loadScript_guarded by exact Hne;
      [reflexivity|exact Hne].
  - now apply IH.
  - now rewrite IH.
Qed.

(** The component with the guard: over any sequence of mounts, unmounts and
    [connect()] calls, [createElement] runs at most once, and a document that
    held at most one embed script still holds at most one; [connect()]
    never touches the document. *)
Lemma loadScript_injects_at_most_once evs : forall pg,
  next_id (doc pg) <= next_id (doc (pageRun evs pg)) <= S (next_id (doc pg))
  /\ (length (embedScripts (doc pg)) <= 1 ->
      length (embedScripts (doc (pageRun evs pg))) <= 1).
Proof.
  induction evs as [|ev rest IH]; intros pg; simpl; [lia|].
  destruct ev as [| |clock]; simpl.
  - destruct (embedScripts (doc pg)) as [|e es] eqn:Hnow.
    + destruct (loadScript_first _ Hnow) as [Hone Hid].
      rewrite pageRun_guarded; simpl.
      * rewrite Hone, Hid. lia.
      * intros Habs. rewrite Habs in Hone. discriminate Hone.
    + rewrite loadScript_guarded by (rewrite Hnow; discriminate).
      specialize (IH {| doc := doc pg; world := world pg |}). simpl in IH.
      rewrite Hnow in IH. exact IH.
  - apply IH.
  - exact (IH {| doc := doc pg;
                 world := Widget.connect
                            {| Widget.document := doc pg; Widget.clock := clock |}
                            (world pg) |}).
Qed.

End ScriptLoading.

(* ------------------------------------------------------------------------- *)
(** ** ErrorLogger: queries and what the buffer always satisfies *)

Section LoggerQueriesProperties.
Import ErrorLogger LoggerQueries.

Lemma sliceFromEnd_suffix (A : Type) n (l : list A) :
  exists older, l = older ++ sliceFromEnd n l.
Proof.
  destruct n as [|k]; simpl.
  - now exists [].
  - exists (firstn (length l - S k) l). now rewrite firstn_skipn.
Qed.

Lemma sliceFromEnd_keeps_last (A : Type) n (l : list A) (x : A) :
  exists front, sliceFromEnd n (l ++ [x]) = front ++ [x].
Proof.
  destruct n as [|k]; simpl.
  - now exists l.
  - rewrite length_app, skipn_app. simpl.
    exists (skipn (length l + 1 - S k) l).
    replace (length l + 1 - S k - length l) with 0 by lia. reflexivity.
Qed.

Lemma sliceFromEnd_Forall (A : Type) (P : A -> Prop) n (l : list A) :
  Forall P l -> Forall P (sliceFromEnd n l).
Proof.
  intros Hall. destruct (sliceFromEnd_suffix n l) as [older Heq].
  rewrite Heq in Hall. now apply Forall_app in Hall.
Qed.

Lemma clearLogs_result h lg :
  maxLogs (fst (clearLogs h lg)) = maxLogs lg
  /\ isProduction (fst (clearLogs h lg)) = isProduction lg
  /\ length (logs (fst (clearLogs h lg))) = 1
  /\ Forall (fun e => level e = INFO) (logs (fst (clearLogs h lg))).
Proof.
  unfold clearLogs, info, createLogEntry; simpl.
  destruct (maxLogs lg) as [|[|k]]; simpl; repeat split; auto.
Qed.

Lemma run_op_bounds h op lg :
  0 < maxLogs lg ->
  1 <= length (logs lg) <= maxLogs lg ->
  maxLogs (run_op h op lg) = maxLogs lg
  /\ isProduction (run_op h op lg) = isProduction lg
  /\ 1 <= length (logs (run_op h op lg)) <= maxLogs lg.
Proof.
  intros Hpos Hlen. destruct op as [c|]; unfold run_op.
  - destruct (run_call_config h c lg) as [Hmax Hprod].
    pose proof (run_call_cases h c lg) as Hcases.
    destruct (snd (run_call h c lg)) as [e|].
    + destruct Hcases as [_ Hlogs]. rewrite Hlogs.
      rewrite sliceFromEnd_length, length_app by exact Hpos. simpl.
      repeat split; auto; lia.
    + destruct Hcases as [_ Hsame]. rewrite Hsame. auto.
  - destruct (clearLogs_result h lg) as (Hmax & Hprod & Hone & _).
    rewrite Hone. repeat split; auto; lia.
Qed.

Lemma run_ops_bounds ops : forall lg,
  0 < maxLogs lg ->
  1 <= length (logs lg) <= maxLogs lg ->
  maxLogs (run_ops ops lg) = maxLogs lg
  /\ isProduction (run_ops ops lg) = isProduction lg
  /\ 1 <= length (logs (run_ops ops lg)) <= maxLogs lg.
Proof.
  induction ops as [|[h op] rest IH]; intros lg Hpos Hlen; simpl; [auto|].
  destruct (@run_op_bounds h op lg Hpos Hlen) as (Hmax & Hprod & Hlen').
  rewrite <- Hmax in Hpos, Hlen'.
  destruct (IH _ Hpos Hlen') as (IHmax & IHprod & IHlen).
  rewrite IHmax, IHprod, Hmax, Hprod. rewrite Hmax in IHlen. auto.
Qed.

(** X1. The buffer of a constructed logger, after any sequence of logging
    calls and [clearLogs()], holds at least one entry and at most 1000. *)
Theorem logger_buffer_bounds (production : bool) (h0 : Host)
    (ops : list (Host * Op)) :
  let lg := run_ops ops (construct production h0) in
  1 <= length (logs lg) <= 1000
  /\ maxLogs lg = 1000
  /\ isProduction lg = production.
Proof.
  assert (Hpos : 0 < maxLogs (construct production h0)) by (simpl; lia).
  assert (Hlen : 1 <= length (logs (construct production h0))
                 <= maxLogs (construct production h0)) by (simpl; lia).
  destruct (@run_ops_bounds ops _ Hpos Hlen) as (Hmax & Hprod & Hbounds).
  simpl. auto.
Qed.

(** X2. [getRecentLogs(0)] returns the whole buffer; for a count of at least
    one it returns the end of the buffer, as many entries as the count or all
    of them if there are fewer. The debug panel, which asks for 100, shows at
    most 100 entries. *)
Theorem getRecentLogs_spec (lg : Logger) (n : nat) :
  getRecentLogs 0 lg = logs lg
  /\ (exists older, logs lg = older ++ getRecentLogs (S n) lg)
  /\ length (getRecentLogs (S n) lg) = Nat.min (S n) (length (logs lg))
  /\ length (refreshLogs lg) <= 100.
Proof.
  unfold refreshLogs, getRecentLogs. split; [reflexivity|].
  split; [apply sliceFromEnd_suffix|].
  split; [apply sliceFromEnd_length; lia|].
  rewrite sliceFromEnd_length by lia. lia.
Qed.

Lemma getLogsByLevel_nil_iff lvl lg :
  getLogsByLevel lvl lg = [] <-> Forall (fun e => level e <> lvl) (logs lg).
Proof.
  unfold getLogsByLevel. induction (logs lg) as [|e rest IH]; simpl.
  - split; auto.
  - destruct (Level_eqb (level e) lvl) eqn:He.
    + split; [discriminate|]. intros Hall. inversion Hall as [|? ? Hne _]; subst.
      destruct (level e), lvl; simpl in He; try discriminate; now elim Hne.
    + rewrite IH. split.
      * intros Hall. constructor; [|exact Hall].
        intros Heq. rewrite Heq in He. now destruct lvl.
      * intros Hall. now inversion Hall.
Qed.

Lemma run_op_no_debug h op lg :
  isProduction lg = true ->
  is_direct_debug op = false ->
  Forall (fun e => level e <> DEBUG) (logs lg) ->
  Forall (fun e => level e <> DEBUG) (logs (run_op h op lg)).
Proof.
  intros Hprod Hop Hall. destruct op as [c|]; unfold run_op.
  - pose proof (run_call_cases h c lg) as Hcases.
    destruct (snd (run_call h c lg)) as [e|].
    + destruct Hcases as [(Hreach & _ & _ & Hlevel & _) Hlogs].
      rewrite Hlogs. apply sliceFromEnd_Forall, Forall_app. split; [exact Hall|].
      constructor; [|constructor]. rewrite Hlevel. rewrite Hprod in Hreach.
      destruct c as [lvl| | | |]; simpl in *; try discriminate.
      destruct lvl; simpl in Hop; discriminate.
    + destruct Hcases as [_ Hsame]. now rewrite Hsame.
  - destruct (clearLogs_result h lg) as (_ & _ & _ & Hinfo).
    eapply Forall_impl; [|exact Hinfo]. simpl. intros e ->. discriminate.
Qed.

(** X3. In production mode the buffer never holds a DEBUG entry, whatever
    [error], [warn], [info], [debug] and [clearLogs] calls are made (and
    [createLogEntry] calls with another level). *)
Theorem production_buffer_has_no_debug_entry (h0 : Host)
    (ops : list (Host * Op)) :
  forallb (fun hop => negb (is_direct_debug (snd hop))) ops = true ->
  getLogsByLevel DEBUG (run_ops ops (construct true h0)) = [].
Proof.
  intros Hops. apply getLogsByLevel_nil_iff.
  assert (Hstart : Forall (fun e => level e <> DEBUG)
                     (logs (construct true h0)))
    by (simpl; constructor; [discriminate|constructor]).
  assert (Hprod : isProduction (construct true h0) = true) by reflexivity.
  revert Hstart Hprod. generalize (construct true h0).
  induction ops as [|[h op] rest IH]; intros lg Hall Hprod; simpl; [exact Hall|].
  simpl in Hops. apply andb_true_iff in Hops as [Hop Hrest].
  apply negb_true_iff in Hop.
  apply IH; [exact Hrest|now apply run_op_no_debug|].
  destruct op as [c|]; unfold run_op.
  - destruct (run_call_config h c lg) as [_ Hp]. now rewrite Hp.
  - destruct (clearLogs_result h lg) as (_ & Hp & _). now rewrite Hp.
Qed.

Lemma production_buffer_has_no_debug_entry_witness :
  forallb (fun hop => negb (is_direct_debug (snd hop))) MoreSamples.productionOps
  = true
  /\ getLogsByLevel DEBUG
       (run_ops MoreSamples.productionOps (construct true (Samples.logHost 0)))
     = [].
Proof.
  assert (Hops : forallb (fun hop => negb (is_direct_debug (snd hop)))
                   MoreSamples.productionOps = true) by reflexivity.
  split; [exact Hops|].
  exact (production_buffer_has_no_debug_entry (Samples.logHost 0)
           MoreSamples.productionOps Hops).
Defined.

Lemma jsstring_eqb_refl s : jsstring_eqb s s = true.
Proof. induction s as [|c rest IH]; simpl; [reflexivity|]. now rewrite N.eqb_refl. Qed.

Lemma Level_eqb_refl lvl : Level_eqb lvl lvl = true.
Proof. now destruct lvl. Qed.

(** X4. The entry a logging call returns is at once the newest one:
    [getRecentLogs(1)] is exactly that entry, and it is the last entry of
    [getLogsByLevel] for its level, whatever was evicted to make room. *)
Theorem logged_entry_is_newest (h : Host) (c : Call) (lg : Logger) (e : LogEntry) :
  snd (run_call h c lg) = Some e ->
  let lg' := fst (run_call h c lg) in
  getRecentLogs 1 lg' = [e]
  /\ level e = call_level c
  /\ exists earlier, getLogsByLevel (call_level c) lg' = earlier ++ [e].
Proof.
  intros Hret lg'. pose proof (run_call_cases h c lg) as Hcases.
  rewrite Hret in Hcases. destruct Hcases as [(_ & _ & _ & Hlevel & _) Hlogs].
  destruct (sliceFromEnd_keeps_last (maxLogs lg) (logs lg) e) as [front Hfront].
  fold lg' in Hlogs. rewrite Hfront in Hlogs.
  unfold getRecentLogs, getLogsByLevel. rewrite Hlogs. repeat split.
  - simpl. rewrite length_app, skipn_app. simpl.
    replace (length front + 1 - 1) with (length front) by lia.
    rewrite skipn_all, Nat.sub_diag. reflexivity.
  - exact Hlevel.
  - exists (filter (fun log => Level_eqb (level log) (call_level c)) front).
    rewrite filter_app. simpl. now rewrite Hlevel, Level_eqb_refl.
Qed.

Lemma logged_entry_is_newest_witness :
  let h := Samples.logHost 7 in
  let c := CallWarn (str "slow frame") JNull (Some (str "Performance Monitor")) in
  let lg := construct false (Samples.logHost 0) in
  exists e,
    snd (run_call h c lg) = Some e
    /\ getRecentLogs 1 (fst (run_call h c lg)) = [e]
    /\ level e = WARN.
Proof.
  cbv zeta. eexists. split; [reflexivity|].
  destruct (@logged_entry_is_newest (Samples.logHost 7)
              (CallWarn (str "slow frame") JNull (Some (str "Performance Monitor")))
              (construct false (Samples.logHost 0)) _ eq_refl)
    as (Hrecent & Hlevel & _).
  split; [exact Hrecent|exact Hlevel].
Defined.

End LoggerQueriesProperties.

(* ------------------------------------------------------------------------- *)
(** ** ErrorContext: notifications and dismissal *)

Section ErrorContextProperties.
Import Types ErrorContext Notifications.

Lemma str_inj a b : str a = str b -> a = b.
Proof.
  revert b. induction a as [|c a IH]; intros [|d b] H; simpl in H;
    try discriminate; [reflexivity|].
  injection H as Hc Hrest. f_equal; [|now apply IH].
  rewrite <- (ascii_N_embedding c), <- (ascii_N_embedding d). now f_equal.
Qed.

Lemma ofZ_inj a b : ofZ a = ofZ b -> a = b.
Proof.
  unfold ofZ. intros H. apply str_inj in H.
  apply DecimalZ.to_int_inj.
  assert (Hgood : forall z, Z.to_int z <> Decimal.Pos Decimal.Nil
                            /\ Z.to_int z <> Decimal.Neg Decimal.Nil).
  { intros [|p|p]; simpl; split; try discriminate;
      intros [= Hp]; now apply (Unsigned.to_uint_nonnil p). }
  destruct (Hgood a) as [Ha1 Ha2]. destruct (Hgood b) as [Hb1 Hb2].
  pose proof (NilZero.isi _ Ha1 Ha2) as Ia.
  pose proof (NilZero.isi _ Hb1 Hb2) as Ib.
  rewrite H in Ia. rewrite Ia in Ib. now injection Ib.
Qed.

Lemma jsstring_eqb_eq a b : jsstring_eqb a b = true <-> a = b.
Proof.
  revert b. induction a as [|x a IH]; intros [|y b]; simpl;
    try (split; [discriminate|discriminate]); [tauto|].
  rewrite andb_true_iff, N.eqb_eq, IH. split.
  - intros [-> ->]. reflexivity.
  - intros [= -> ->]. auto.
Qed.

(** X5. [handleError] always adds exactly one error and shows exactly one
    toast. For an [Error] whose message mentions the microphone (or
    getUserMedia) the toast carries the bare message, stays 8000 ms and is
    given no click callback; for every other [Error] it carries the message
    followed by " (Tap to retry)", stays 5000 ms and is given the callback that
    removes the error. A value that is
    not an [Error] is reported as a recoverable [UNKNOWN_ERROR] with the fixed
    message "An unexpected error occurred". *)
Theorem handleError_notification (now : Z) (error : Thrown) (context : jsstring)
    (p : Provider) :
  let p' := handleError now error context p in
  exists appError shown,
    errors (state p') = errors (state p) ++ [appError]
    /\ toasts p' = toasts p ++ [shown]
    /\ isRecovering (state p') = isRecovering (state p)
    /\ match error with
       | ErrorInstance message =>
           AppError.message appError = message
           /\ (if ErrorType_eqb (classify message) MICROPHONE_ACCESS_DENIED
               then shown = {| toastMessage := message; duration := 8000%N;
                               dismissOnClick := false |}
               else shown = {| toastMessage := message ++ str " (Tap to retry)";
                               duration := 5000%N; dismissOnClick := true |})
       | NotAnError _ =>
           AppError.type appError = UNKNOWN_ERROR
           /\ AppError.recoverable appError = true
           /\ AppError.message appError = str "An unexpected error occurred"
           /\ shown = {| toastMessage :=
                           str "An unexpected error occurred (Tap to retry)";
                         duration := 5000%N; dismissOnClick := true |}
       end.
Proof.
  unfold handleError, addError. simpl.
  destruct error as [message|asString]; simpl.
  - do 2 eexists. do 3 (split; [reflexivity|]). split; [reflexivity|].
    destruct (ErrorType_eqb (classify message) MICROPHONE_ACCESS_DENIED);
      reflexivity.
  - do 2 eexists. repeat split.
Qed.

(** X6. [removeError(id)] with the id of a time stamp removes every active
    error created in that millisecond, not only one, and keeps all the others
    in their order; it never touches the toasts or the recovering flag. *)
Theorem removeError_by_timestamp (t : Z) (p : Provider) :
  errors (state (removeError (ofZ t) p))
  = filter (fun e => negb (Z.eqb (AppError.timestamp e) t)) (errors (state p))
  /\ toasts (removeError (ofZ t) p) = toasts p
  /\ isRecovering (state (removeError (ofZ t) p)) = isRecovering (state p).
Proof.
  unfold removeError; simpl. repeat split.
  apply filter_ext. intros e. f_equal.
  destruct (Z.eqb_spec (AppError.timestamp e) t) as [->|Hne].
  - apply jsstring_eqb_refl.
  - destruct (jsstring_eqb (ofZ (AppError.timestamp e)) (ofZ t)) eqn:E;
      [|reflexivity].
    apply jsstring_eqb_eq, ofZ_inj in E. contradiction.
Qed.

Example removeError_takes_both_errors_of_a_millisecond :
  let p := addError (MoreSamples.microphoneError 1700000000123)
             (addError (MoreSamples.networkError 1700000000123)
                (addError (MoreSamples.networkError 1700000000001)
                   initialProvider)) in
  map AppError.timestamp
    (errors (state (removeError (str "1700000000123") p)))
  = [1700000000001%Z].
Proof. reflexivity. Qed.

(** X7. The [onClick] callback that [addError] hands over with the toast of
    a recoverable error takes that error out again: if no other active error
    has its time stamp, the active errors are what they were before it was
    added. The toast of an error that is not recoverable is given no callback
    and the error stays. The toasts shown are never taken back. *)
Theorem toast_callback_dismisses_recoverable_error (error : AppError.t) (p : Provider) :
  Forall (fun e => AppError.timestamp e <> AppError.timestamp error)
    (errors (state p)) ->
  let added := addError error p in
  (AppError.recoverable error = true ->
   errors (state (toastOnClick error added)) = errors (state p))
  /\ (AppError.recoverable error = false ->
      toastOnClick error added = added
      /\ errors (state added) = errors (state p) ++ [error])
  /\ length (toasts (toastOnClick error added)) = S (length (toasts p)).
Proof.
  intros Hfresh added. unfold toastOnClick, errorId.
  destruct (AppError.recoverable error) eqn:Hr.
  - split; [intros _|split; [discriminate|]].
    + destruct (removeError_by_timestamp (AppError.timestamp error) added)
        as (Herr & _ & _).
      rewrite Herr. unfold added, addError; simpl.
      rewrite filter_app. simpl. rewrite Z.eqb_refl. simpl. rewrite app_nil_r.
      apply forallb_filter_id. apply forallb_forall. intros e He.
      rewrite Forall_forall in Hfresh. apply negb_true_iff, Z.eqb_neq.
      now apply Hfresh.
    + unfold removeError, added, addError; simpl.
      rewrite length_app. simpl. lia.
  - split; [discriminate|]. split; [intros _; split; reflexivity|].
    unfold added, addError; simpl. rewrite length_app. simpl. lia.
Qed.

Lemma toast_callback_dismisses_recoverable_error_witness :
  let p := addError (MoreSamples.microphoneError 1700000000001) initialProvider in
  let e := MoreSamples.networkError 1700000000002 in
  Forall (fun x => AppError.timestamp x <> AppError.timestamp e)
    (errors (state p))
  /\ AppError.recoverable e = true
  /\ errors (state (toastOnClick e (addError e p))) = errors (state p).
Proof.
  cbv zeta.
  assert (Hfresh : Forall (fun x => AppError.timestamp x
                                    <> AppError.timestamp
                                         (MoreSamples.networkError 1700000000002))
                     (errors (state (addError
                        (MoreSamples.microphoneError 1700000000001)
                        initialProvider))))
    by (constructor; [discriminate|constructor]).
  split; [exact Hfresh|]. split; [reflexivity|].
  destruct (@toast_callback_dismisses_recoverable_error
              (MoreSamples.networkError 1700000000002) _ Hfresh)
    as (Hclick & _ & _).
  exact (Hclick eq_refl).
Defined.

End ErrorContextProperties.

(* ------------------------------------------------------------------------- *)
(** ** Messages: validation and the timeline *)

Section TimelineProperties.
Import Types ChatWindow ChatController.

(** X8. [createChatMessage] throws exactly on the empty string. Its check
    runs before the trim, so content made of white space only passes and
    gives a message whose content is empty. *)
Theorem createChatMessage_validation (uuid : jsstring) (now : Z)
    (content : jsstring) (sender : Sender) (type : MessageType) :
  (content = [] ->
   Utils.createChatMessage uuid now content sender type
   = Throw (str "Message content is required and must be a string"))
  /\ (content <> [] ->
      Utils.createChatMessage uuid now content sender type
      = Ok (createMessage uuid now (trim content) sender type))
  /\ (content <> [] -> isBlank content = true ->
      exists m,
        Utils.createChatMessage uuid now content sender type = Ok m
        /\ Message.content m = []).
Proof.
  split; [intros ->; reflexivity|].
  assert (Hok : content <> [] ->
                Utils.createChatMessage uuid now content sender type
                = Ok (createMessage uuid now (trim content) sender type)).
  { intros Hne. apply createChatMessage_ok. destruct content; [now elim Hne|reflexivity]. }
  split; [exact Hok|].
  intros Hne Hblank. eexists. split; [exact (Hok Hne)|]. simpl.
  pose proof (truthy_trim content) as Ht. rewrite Hblank in Ht. simpl in Ht.
  destruct (trim content); [reflexivity|discriminate Ht].
Qed.

Lemma createChatMessage_validation_witness :
  str "   " <> []
  /\ isBlank (str "   ") = true
  /\ exists m,
      Utils.createChatMessage (str "id") 0%Z (str "   ") user text = Ok m
      /\ Message.content m = [].
Proof.
  assert (Hne : str "   " <> []) by discriminate.
  assert (Hb : isBlank (str "   ") = true) by reflexivity.
  split; [exact Hne|]. split; [exact Hb|].
  destruct (createChatMessage_validation (str "id") 0%Z (str "   ") user text)
    as (_ & _ & Hblank).
  exact (Hblank Hne Hb).
Defined.

Lemma chatStep_frame h ev st :
  provider (chatStep h ev st) = provider st
  /\ ChatState.error (chatState (chatStep h ev st))
     = ChatState.error (chatState st)
  /\ exists added,
      ChatState.messages (chatState (chatStep h ev st))
      = ChatState.messages (chatState st) ++ added
      /\ length added <= 1
      /\ Forall (fun m => Message.status m = sent /\ Message.content m <> [])
           added.
Proof.
  destruct ev as [content|]; simpl.
  - destruct (isBlank content) eqn:Hb.
    + unfold handleSendMessage. rewrite truthy_trim, Hb. simpl.
      repeat split; auto. exists []. rewrite app_nil_r. auto.
    + rewrite handleSendMessage_nonblank by exact Hb. simpl.
      repeat split; auto. eexists. split; [reflexivity|]. split; [simpl; lia|].
      constructor; [|constructor]. simpl. split; [reflexivity|].
      pose proof (truthy_trim content) as Ht. rewrite Hb in Ht.
      intros Hnil. rewrite Hnil in Ht. discriminate Ht.
  - unfold replyTimerFires.
    destruct (pendingReplies st) as [|pending].
    + repeat split; auto. exists []. rewrite app_nil_r. auto.
    + destruct (Nat.lt_ge_cases (randomIndex h) 5) as [Hk|Hk].
      * destruct (responses_pick Hk) as (r & Hnth & Htruthy & Htrim).
        rewrite Hnth, createChatMessage_ok by exact Htruthy. simpl.
        repeat split; auto. eexists. split; [reflexivity|]. split; [simpl; lia|].
        constructor; [|constructor]. simpl. split; [reflexivity|].
        rewrite Htrim. intros Hnil. rewrite Hnil in Htruthy. discriminate Htruthy.
      * assert (Hnone : nth_error responses (randomIndex h) = None)
          by (apply nth_error_None; exact Hk).
        rewrite Hnone. simpl.
        repeat split; auto. exists []. rewrite app_nil_r. auto.
Qed.

(** X9. Over any sequence of sends and reply timers the timeline only grows
    at its end: the messages that were there stay, in place and unchanged;
    every message added has the status [sent] and a content that is not
    empty; and each event adds at most one message. *)
Theorem timeline_is_append_only (evs : list (Host * ChatEvent)) (st : State) :
  exists added,
    ChatState.messages (chatState (chatRun evs st))
    = ChatState.messages (chatState st) ++ added
    /\ length added <= length evs
    /\ Forall (fun m => Message.status m = sent /\ Message.content m <> [])
         added.
Proof.
  revert st. induction evs as [|[h ev] rest IH]; intros st; simpl.
  - exists []. rewrite app_nil_r. auto.
  - destruct (chatStep_frame h ev st) as (_ & _ & first & Hfirst & Hlen & Hall).
    destruct (IH (chatStep h ev st)) as (more & Hmore & Hlen' & Hall').
    exists (first ++ more). rewrite Hmore, Hfirst, <- app_assoc.
    split; [reflexivity|]. split; [rewrite length_app; lia|].
    apply Forall_app. auto.
Qed.

(** X10. Sending and replying never fail: over any sequence of sends and
    reply timers nothing is reported to the error context and the chat's own
    error text is never set; the [catch] of [handleSendMessage] is never
    entered. *)
Theorem sending_never_reports_an_error (evs : list (Host * ChatEvent))
    (st : State) :
  provider (chatRun evs st) = provider st
  /\ ChatState.error (chatState (chatRun evs st))
     = ChatState.error (chatState st).
Proof.
  revert st. induction evs as [|[h ev] rest IH]; intros st; simpl; [auto|].
  destruct (chatStep_frame h ev st) as (Hp & He & _).
  destruct (IH (chatStep h ev st)) as [IHp IHe].
  rewrite IHp, IHe. auto.
Qed.

End TimelineProperties.

(* ------------------------------------------------------------------------- *)
(** ** The widget hook: what its operations leave alone *)

Section WidgetFrameProperties.
Import Types Widget.

(** X11. The three voice commands report through their result only:
    [startVoiceInput] succeeds exactly when the manager is connected,
    [stopVoiceInput] always succeeds, [toggleVoiceInput] fails exactly when
    the manager is neither listening nor connected; none of them reports to
    the error context, and none changes [isConnected], [isInCall], the widget
    status or the element reference. *)
Theorem voice_commands_frame (h : Host) (a : Action) (w : World) :
  In a [StartVoiceInput; StopVoiceInput; ToggleVoiceInput] ->
  provider (step h a w) = provider w
  /\ isConnected (hook (step h a w)) = isConnected (hook w)
  /\ isInCall (hook (step h a w)) = isInCall (hook w)
  /\ widgetStatus (hook (step h a w)) = widgetStatus (hook w)
  /\ widgetRef (hook (step h a w)) = widgetRef (hook w)
  /\ snd (startVoiceInput h w) = isConnected (hook w)
  /\ snd (stopVoiceInput w) = true
  /\ snd (toggleVoiceInput h w)
     = (isListening (hook w) || isConnected (hook w)).
Proof.
  intros Hin.
  assert (Hres : snd (startVoiceInput h w) = isConnected (hook w)
                 /\ snd (stopVoiceInput w) = true
                 /\ snd (toggleVoiceInput h w)
                    = (isListening (hook w) || isConnected (hook w))).
  { unfold toggleVoiceInput, startVoiceInput, stopVoiceInput.
    destruct (isListening (hook w)), (isConnected (hook w)); simpl; auto. }
  simpl in Hin.
  destruct Hin as [<-|[<-|[<-|[]]]]; simpl;
    unfold toggleVoiceInput, startVoiceInput, stopVoiceInput;
    destruct (isListening (hook w)) eqn:Hl, (isConnected (hook w)) eqn:Hc;
    simpl; rewrite ?Hl, ?Hc; simpl; repeat split; auto; try apply Hres.
Qed.

Lemma voice_commands_frame_witness :
  let h := Samples.widgetHost Dom.emptyDocument in
  In ToggleVoiceInput [StartVoiceInput; StopVoiceInput; ToggleVoiceInput]
  /\ provider (step h ToggleVoiceInput initialWorld) = provider initialWorld
  /\ snd (toggleVoiceInput h initialWorld) = false.
Proof.
  cbv zeta.
  assert (Hin : In ToggleVoiceInput
                  [StartVoiceInput; StopVoiceInput; ToggleVoiceInput])
    by (simpl; auto).
  split; [exact Hin|].
  destruct (@voice_commands_frame (Samples.widgetHost Dom.emptyDocument)
              ToggleVoiceInput initialWorld Hin)
    as (Hp & _ & _ & _ & _ & _ & _ & Htoggle).
  split; [exact Hp|exact Htoggle].
Defined.

(** X12. [handleWidgetError(message)] keeps the four flags as they are. The
    error it puts in the hook is always a recoverable
    [WIDGET_INITIALIZATION_ERROR] with that message, while the one error it
    reports to the error context has the kind the message classifies to, so
    the two kinds differ whenever the message does not classify as a widget
    error. *)
Theorem handleWidgetError_kinds (h : Host) (message : jsstring) (w : World) :
  let w' := handleWidgetError h message w in
  isConnected (hook w') = isConnected (hook w)
  /\ isInCall (hook w') = isInCall (hook w)
  /\ isListening (hook w') = isListening (hook w)
  /\ isSpeaking (hook w') = isSpeaking (hook w)
  /\ exists held reported,
      error (hook w') = Some held
      /\ AppError.type held = WIDGET_INITIALIZATION_ERROR
      /\ AppError.message held = message
      /\ AppError.recoverable held = true
      /\ ErrorContext.errors (ErrorContext.state (provider w'))
         = ErrorContext.errors (ErrorContext.state (provider w)) ++ [reported]
      /\ AppError.type reported = ErrorContext.classify message
      /\ AppError.message reported = message
      /\ (AppError.type reported = AppError.type held
          <-> ErrorContext.classify message = WIDGET_INITIALIZATION_ERROR).
Proof.
  simpl. do 4 (split; [reflexivity|]).
  do 2 eexists. do 7 (split; [reflexivity|]). simpl. tauto.
Qed.

Example default_widget_error_message_is_unknown :
  ErrorContext.classify (str "Widget error occurred") = UNKNOWN_ERROR
  /\ ErrorContext.classify (str "Failed to load ElevenLabs script")
     = UNKNOWN_ERROR
  /\ ErrorContext.classify (str "Failed to load ElevenLabs widget script")
     = WIDGET_INITIALIZATION_ERROR.
Proof. repeat split. Qed.

Lemma step_reports h a w :
  exists added shown,
    ErrorContext.errors (ErrorContext.state (provider (step h a w)))
    = ErrorContext.errors (ErrorContext.state (provider w)) ++ added
    /\ ErrorContext.toasts (provider (step h a w))
       = ErrorContext.toasts (provider w) ++ shown
    /\ length added = length shown
    /\ length added <= 1.
Proof.
  assert (Hnone : forall w', provider w' = provider w ->
            exists added shown,
              ErrorContext.errors (ErrorContext.state (provider w'))
              = ErrorContext.errors (ErrorContext.state (provider w)) ++ added
              /\ ErrorContext.toasts (provider w')
                 = ErrorContext.toasts (provider w) ++ shown
              /\ length added = length shown
              /\ length added <= 1).
  { intros w' ->. exists [], []. rewrite !app_nil_r. simpl. auto. }
  destruct a as [status| | |msg| | | | | |]; simpl;
    try (apply Hnone; reflexivity).
  - apply Hnone. now destruct status.
  - do 2 eexists. repeat split; simpl; auto.
  - unfold connect. destruct (locateWidget h); simpl.
    + apply Hnone. reflexivity.
    + do 2 eexists. repeat split; simpl; auto.
  - apply Hnone. unfold startVoiceInput. now destruct (isConnected (hook w)).
  - apply Hnone. unfold toggleVoiceInput, startVoiceInput, stopVoiceInput.
    now destruct (isListening (hook w)), (isConnected (hook w)).
Qed.

(** X13. Whatever happens to the hook, the error context only grows at its
    end, by at most one error per event, and every error reported comes with
    exactly one toast; the hook never removes an active error. *)
Theorem hook_only_appends_reports (trace : list (Host * Action)) (w : World) :
  exists added shown,
    ErrorContext.errors (ErrorContext.state (provider (run trace w)))
    = ErrorContext.errors (ErrorContext.state (provider w)) ++ added
    /\ ErrorContext.toasts (provider (run trace w))
       = ErrorContext.toasts (provider w) ++ shown
    /\ length added = length shown
    /\ length added <= length trace.
Proof.
  revert w. induction trace as [|[h a] rest IH]; intros w; simpl.
  - exists [], []. rewrite !app_nil_r. simpl. auto.
  - destruct (step_reports h a w) as (a1 & s1 & He1 & Ht1 & Hl1 & Hb1).
    destruct (IH (step h a w)) as (a2 & s2 & He2 & Ht2 & Hl2 & Hb2).
    exists (a1 ++ a2), (s1 ++ s2).
    rewrite He2, He1, Ht2, Ht1, <- !app_assoc, !length_app.
    repeat split; lia.
Qed.

(** X14. [disconnect()] resets the four flags and the error and nothing
    else: it keeps the element reference, the widget status and the error
    context. Doing it twice is doing it once, and it changes nothing exactly
    when the flags are all false and no error is held, as in the initial
    state. The teardown of the hook leaves no call active. *)
Theorem disconnect_resets (w : World) :
  disconnect (disconnect w) = disconnect w
  /\ provider (disconnect w) = provider w
  /\ widgetRef (hook (disconnect w)) = widgetRef (hook w)
  /\ widgetStatus (hook (disconnect w)) = widgetStatus (hook w)
  /\ (disconnect w = w
      <-> isConnected (hook w) = false /\ isInCall (hook w) = false
          /\ isListening (hook w) = false /\ isSpeaking (hook w) = false
          /\ error (hook w) = None)
  /\ disconnect initialWorld = initialWorld
  /\ isInCall (hook (WidgetState.cleanupOnUnmount w)) = false.
Proof.
  split; [reflexivity|]. do 3 (split; [reflexivity|]). split; [|split].
  - split.
    + intros Heq. rewrite <- Heq. simpl. auto.
    + intros (Hc & Hi & Hl & Hs & He).
      destruct w as [[c i l sp e st r] p]. simpl in *. subst. reflexivity.
  - reflexivity.
  - unfold WidgetState.cleanupOnUnmount. destruct (isInCall (hook w)) eqn:Hi;
      [reflexivity|exact Hi].
Qed.

End WidgetFrameProperties.

(* ------------------------------------------------------------------------- *)
(** ** The script in the document and [isWidgetAvailable] *)

Section AvailabilityProperties.
Import Dom VoiceWidget.

Lemma available_iff_script (d : document) (clock : nat -> Z) :
  WidgetState.isWidgetAvailable {| Widget.document := d; Widget.clock := clock |}
  = negb (match embedScripts d with [] => true | _ :: _ => false end).
Proof.
  unfold WidgetState.isWidgetAvailable; simpl.
  destruct (querySelector isEmbedScript d) eqn:Hq.
  - destruct (embedScripts d) eqn:He; [|reflexivity].
    apply querySelector_embedScript in He. congruence.
  - apply querySelector_embedScript in Hq. now rewrite Hq.
Qed.

(** X15. After either component has run its script-loading effect the hook
    reports the widget as available, whatever the document held before; on a
    document without an embed script it reports it as unavailable, and
    [getState()] carries the same flag. *)
Theorem widget_available_after_loading (d : document) (clock : nat -> Z)
    (w : Widget.World) :
  let host := fun doc => {| Widget.document := doc; Widget.clock := clock |} in
  WidgetState.isWidgetAvailable (host (fst (loadScript d))) = true
  /\ WidgetState.isWidgetAvailable (host (fst (compactMount d))) = true
  /\ (embedScripts d = [] -> WidgetState.isWidgetAvailable (host d) = false)
  /\ WidgetState.isAvailable
       (WidgetState.getState (host (fst (loadScript d))) w) = true.
Proof.
  intros host. unfold host.
  assert (Hload : WidgetState.isWidgetAvailable
                    {| Widget.document := fst (loadScript d);
                       Widget.clock := clock |} = true).
  { rewrite available_iff_script.
    destruct (embedScripts d) as [|e es] eqn:He.
    - destruct (loadScript_first _ He) as [Hone _].
      destruct (embedScripts (fst (loadScript d))); [discriminate Hone|reflexivity].
    - rewrite loadScript_guarded by (rewrite He; discriminate).
      simpl. now rewrite He. }
  split; [exact Hload|]. split; [|split; [|exact Hload]].
  - rewrite available_iff_script.
    destruct (compactMount_adds_one d) as (Hlen & _).
    destruct (embedScripts (fst (compactMount d))); [discriminate Hlen|reflexivity].
  - intros He. rewrite available_iff_script. now rewrite He.
Qed.

Lemma widget_available_after_loading_witness :
  embedScripts emptyDocument = []
  /\ WidgetState.isWidgetAvailable (Samples.widgetHost emptyDocument) = false
  /\ WidgetState.isWidgetAvailable
       (Samples.widgetHost (fst (loadScript emptyDocument))) = true.
Proof.
  assert (He : embedScripts emptyDocument = []) by reflexivity.
  split; [exact He|].
  destruct (widget_available_after_loading emptyDocument
              (Widget.clock (Samples.widgetHost emptyDocument))
              Widget.initialWorld) as (Hload & _ & Hnone & _).
  split; [exact (Hnone He)|exact Hload].
Defined.

Lemma filter_keeps_older_nodes (d : document) (l : list element) :
  Forall (fun e => node_id e < next_id d) l ->
  filter (fun x => negb (sameNode x (snd (compactMount d)))) l = l.
Proof.
  intros Hall. apply forallb_filter_id, forallb_forall. intros e He.
  rewrite Forall_forall in Hall. specialize (Hall e He).
  unfold sameNode, compactMount, newScript, createElement; simpl.
  apply negb_true_iff, Nat.eqb_neq. lia.
Qed.

(** X16. In a document whose nodes all were made before ([node_id] below
    [next_id]), mounting the compact component and then running its cleanup
    puts the head and the body back exactly as they were: the cleanup removes
    the script that mount made and no other element. *)
Theorem compact_mount_then_cleanup (d : document) :
  Forall (fun e => node_id e < next_id d) (elements d) ->
  let mounted := compactMount d in
  let cleaned := compactCleanup (snd mounted) (fst mounted) in
  head cleaned = head d
  /\ body cleaned = body d
  /\ embedScripts cleaned = embedScripts d
  /\ next_id cleaned = S (next_id d).
Proof.
  intros Hwf mounted cleaned.
  unfold elements in Hwf. apply Forall_app in Hwf as [Hhead Hbody].
  assert (Hh : head cleaned = head d).
  { unfold cleaned, mounted, compactCleanup, removeIfAttached.
    change (head (fst (compactMount d))) with (head d ++ [snd (compactMount d)]).
    simpl head. rewrite filter_app, filter_keeps_older_nodes by exact Hhead.
    simpl. unfold sameNode. rewrite Nat.eqb_refl. simpl. apply app_nil_r. }
  assert (Hb : body cleaned = body d).
  { unfold cleaned, mounted, compactCleanup, removeIfAttached.
    change (body (fst (compactMount d))) with (body d).
    simpl body. now apply filter_keeps_older_nodes. }
  split; [exact Hh|]. split; [exact Hb|]. split; [|reflexivity].
  unfold embedScripts, elements. now rewrite Hh, Hb.
Qed.

Lemma compact_mount_then_cleanup_witness :
  Forall (fun e => node_id e < next_id Samples.documentWithWidget)
    (elements Samples.documentWithWidget)
  /\ body (compactCleanup (snd (compactMount Samples.documentWithWidget))
             (fst (compactMount Samples.documentWithWidget)))
     = [Samples.widgetElement].
Proof.
  assert (Hwf : Forall (fun e => node_id e < next_id Samples.documentWithWidget)
                  (elements Samples.documentWithWidget))
    by (constructor; [simpl; lia|constructor]).
  split; [exact Hwf|].
  destruct (@compact_mount_then_cleanup Samples.documentWithWidget Hwf)
    as (_ & Hb & _).
  exact Hb.
Defined.

End AvailabilityProperties.

(* ------------------------------------------------------------------------- *)
(** ** The component's events, through to the hook and the error context *)

Section ComponentProperties.
Import Types Widget WidgetComponent.




Lemma react_never_speaks h i m :
  isSpeaking (hook (world m)) = false ->
  isSpeaking (hook (world (react h i m))) = false.
Proof.
  intros Hs. destruct i as [ev| | |c]; simpl.
  - destruct ev; simpl; auto.
  - reflexivity.
  - reflexivity.
  - destruct c; simpl; auto.
    + unfold connect. destruct (locateWidget h); simpl; exact Hs.
    + unfold startVoiceInput. destruct (isConnected (hook (world m))); simpl;
        [reflexivity|exact Hs].
    + unfold toggleVoiceInput, startVoiceInput, stopVoiceInput.
      destruct (isListening (hook (world m))); simpl; [exact Hs|].
      destruct (isConnected (hook (world m))); simpl; [reflexivity|exact Hs].
Qed.

Lemma react_status_kinds h i m :
  In (Widget.widgetStatus (hook (world m))) [StIdle; StConnected; StError] ->
  In (Widget.widgetStatus (hook (world (react h i m)))) [StIdle; StConnected; StError].
Proof.
  intros Hin. destruct i as [ev| | |c]; simpl.
  - destruct ev; simpl; auto.
  - auto.
  - auto.
  - destruct c; simpl; auto.
    + unfold connect. destruct (locateWidget h); simpl; exact Hin.
    + unfold startVoiceInput. destruct (isConnected (hook (world m))); simpl;
        exact Hin.
    + unfold toggleVoiceInput, startVoiceInput, stopVoiceInput.
      destruct (isListening (hook (world m))); simpl; [exact Hin|].
      destruct (isConnected (hook (world m))); simpl; exact Hin.
Qed.

(** X18. Driven by this component (its four widget events, its script load
    and failure) and by the hook's commands, the hook never reports speech:
    [isSpeaking] stays false in every state reached from the initial one, and
    the hook's widget status is only ever idle, connected or error (a call
    that starts sets [isInCall] but not the status). *)
Theorem component_never_sets_speaking (inputs : list (Host * Input)) :
  let m := reactAll inputs initialMounted in
  isSpeaking (hook (world m)) = false
  /\ In (Widget.widgetStatus (hook (world m))) [StIdle; StConnected; StError].
Proof.
  simpl.
  assert (Hgen : forall m,
            isSpeaking (hook (world m)) = false ->
            In (Widget.widgetStatus (hook (world m))) [StIdle; StConnected; StError] ->
            isSpeaking (hook (world (reactAll inputs m))) = false
            /\ In (Widget.widgetStatus (hook (world (reactAll inputs m))))
                 [StIdle; StConnected; StError]).
  { induction inputs as [|[h i] rest IH]; intros m Hs Hst; simpl; [auto|].
    apply IH; [now apply react_never_speaks|now apply react_status_kinds]. }
  apply Hgen; simpl; auto.
Qed.

End ComponentProperties.

(* ------------------------------------------------------------------------- *)
(** ** ChatWindow: the keyboard and the voice toggle *)

Section KeyboardProperties.
Import Types ChatController.

(** Decide the three key tests of [handleKeyDown] for a known key. *)
Ltac key_is k Hkey :=
  unfold handleKeyDown; rewrite Hkey;
  let isEnter := eval vm_compute in (jsstring_eqb k (str "Enter")) in
  let isEscape := eval vm_compute in (jsstring_eqb k (str "Escape")) in
  let isSpace := eval vm_compute in (jsstring_eqb k (str " ")) in
  change (jsstring_eqb k (str "Enter")) with isEnter;
  change (jsstring_eqb k (str "Escape")) with isEscape;
  change (jsstring_eqb k (str " ")) with isSpace;
  rewrite ?andb_false_r, ?andb_true_r; cbv iota; cbn [andb].

(** X19. Escape while listening stops the voice input; the sync effect
    then runs (the listening flag it depends on has changed), and after it
    the chat state shows not listening while the text in the input, the
    messages and the error context are as they were. Escape while not
    listening empties the input and changes nothing else: the hook is as it
    was, so no effect runs. *)
Theorem escape_key (hc : ChatWindow.Host) (hw : Widget.Host) (e : KeyEvent)
    (app : App) :
  key e = str "Escape" ->
  let app' := handleKeyDown hc hw e app in
  let shown := syncChatState app' in
  (Widget.isListening (hook app) = true ->
   Widget.isListening (hook app') = false
   /\ Widget.isConnected (hook app') = Widget.isConnected (hook app)
   /\ Widget.isInCall (hook app') = Widget.isInCall (hook app)
   /\ hook shown = hook app'
   /\ ChatState.isListening (ChatWindow.chatState (ui shown)) = false
   /\ ChatState.messages (ChatWindow.chatState (ui shown))
      = ChatState.messages (ChatWindow.chatState (ui app))
   /\ ChatWindow.inputValue (ui shown) = ChatWindow.inputValue (ui app)
   /\ ChatWindow.isLoading (ui shown) = ChatWindow.isLoading (ui app)
   /\ ChatWindow.pendingReplies (ui shown) = ChatWindow.pendingReplies (ui app)
   /\ ChatWindow.provider (ui shown) = ChatWindow.provider (ui app))
  /\ (Widget.isListening (hook app) = false ->
      ChatWindow.inputValue (ui app') = []
      /\ hook app' = hook app
      /\ ChatWindow.chatState (ui app') = ChatWindow.chatState (ui app)
      /\ ChatWindow.isLoading (ui app') = ChatWindow.isLoading (ui app)
      /\ ChatWindow.pendingReplies (ui app') = ChatWindow.pendingReplies (ui app)
      /\ ChatWindow.provider (ui app') = ChatWindow.provider (ui app)).
Proof.
  intros Hkey app' shown. unfold shown, app'. key_is (str "Escape") Hkey. split.
  - intros Hl. rewrite Hl.
    unfold handleVoiceToggle, Widget.toggleVoiceInput, Widget.stopVoiceInput.
    simpl. rewrite Hl. simpl. repeat split.
  - intros Hl. rewrite Hl.
    destruct (ChatWindow.inputValue (ui app)) as [|c rest] eqn:Hin; simpl;
      repeat split; try reflexivity; exact Hin.
Qed.

Lemma escape_key_witness :
  let hc := Samples.chatHost 1 in
  let hw := Samples.widgetHost Samples.documentWithWidget in
  let listening := MoreSamples.syncedListeningApp (str "draft") in
  key MoreSamples.escapeKey = str "Escape"
  /\ Widget.isListening (hook listening) = true
  /\ ChatState.isListening (ChatWindow.chatState (ui listening)) = true
  /\ Widget.isListening (hook (MoreSamples.appWithDraft (str "draft"))) = false
  /\ ChatState.isListening
       (ChatWindow.chatState
          (ui (syncChatState (handleKeyDown hc hw MoreSamples.escapeKey listening))))
     = false
  /\ ChatWindow.inputValue
       (ui (syncChatState (handleKeyDown hc hw MoreSamples.escapeKey listening)))
     = str "draft"
  /\ ChatWindow.inputValue
       (ui (handleKeyDown hc hw MoreSamples.escapeKey
              (MoreSamples.appWithDraft (str "draft")))) = [].
Proof.
  cbv zeta.
  assert (Hkey : key MoreSamples.escapeKey = str "Escape") by reflexivity.
  assert (Hon : Widget.isListening
                  (hook (MoreSamples.syncedListeningApp (str "draft"))) = true)
    by reflexivity.
  assert (Hoff : Widget.isListening (hook (MoreSamples.appWithDraft (str "draft")))
                 = false) by reflexivity.
  split; [exact Hkey|]. split; [exact Hon|]. split; [reflexivity|].
  split; [exact Hoff|].
  destruct (@escape_key (Samples.chatHost 1)
              (Samples.widgetHost Samples.documentWithWidget)
              MoreSamples.escapeKey (MoreSamples.syncedListeningApp (str "draft"))
              Hkey) as [Hlistening _].
  destruct (Hlistening Hon) as (_ & _ & _ & _ & Hshown & _ & Hinput & _).
  split; [exact Hshown|]. split; [exact Hinput|].
  destruct (@escape_key (Samples.chatHost 1)
              (Samples.widgetHost Samples.documentWithWidget)
              MoreSamples.escapeKey (MoreSamples.appWithDraft (str "draft"))
              Hkey) as [_ Hidle].
  destruct (Hidle Hoff) as (Hempty & _). exact Hempty.
Defined.

(** X20. Space does nothing while the chat input has the focus. Elsewhere
    it toggles the voice input: on a connected manager that is not listening
    it starts listening; on a manager that is neither connected nor listening
    the toggle fails, the chat error becomes "Failed to toggle voice input.
    Please try again.", the displayed status is "error", the hook holds a
    [WIDGET_INITIALIZATION_ERROR], and nothing is reported to the error
    context. *)
Theorem space_key (hc : ChatWindow.Host) (hw : Widget.Host) (e : KeyEvent)
    (app : App) :
  key e = str " " ->
  let app' := handleKeyDown hc hw e app in
  (inputFocused e = true -> app' = app)
  /\ (inputFocused e = false -> app' = handleVoiceToggle hw app)
  /\ (inputFocused e = false ->
      Widget.isListening (hook app) = false ->
      Widget.isConnected (hook app) = true ->
      Widget.isListening (hook app') = true
      /\ Widget.isSpeaking (hook app') = false
      /\ ui app' = ui app)
  /\ (inputFocused e = false ->
      Widget.isListening (hook app) = false ->
      Widget.isConnected (hook app) = false ->
      ChatState.error (ChatWindow.chatState (ui app'))
      = Some (str "Failed to toggle voice input. Please try again.")
      /\ getCurrentStatus app' = str "error"
      /\ Widget.isListening (hook app') = false
      /\ ChatWindow.provider (ui app') = ChatWindow.provider (ui app)
      /\ exists held,
          Widget.error (hook app') = Some held
          /\ AppError.type held = WIDGET_INITIALIZATION_ERROR).
Proof.
  intros Hkey app'. unfold app'. key_is (str " ") Hkey.
  split; [intros ->; reflexivity|]. split; [intros ->; reflexivity|]. split.
  - intros -> Hl Hc. simpl.
    unfold handleVoiceToggle, Widget.toggleVoiceInput, Widget.startVoiceInput.
    simpl. rewrite Hl, Hc. simpl. repeat split. now destruct (ui app).
  - intros -> Hl Hc. simpl.
    unfold handleVoiceToggle, Widget.toggleVoiceInput, Widget.startVoiceInput.
    simpl. rewrite Hl, Hc. simpl. repeat split; auto.
    eexists. split; reflexivity.
Qed.

Lemma space_key_witness :
  let hc := Samples.chatHost 1 in
  let hw := Samples.widgetHost Dom.emptyDocument in
  key (MoreSamples.spaceKey false) = str " "
  /\ handleKeyDown hc hw (MoreSamples.spaceKey true) initialApp = initialApp
  /\ getCurrentStatus (handleKeyDown hc hw (MoreSamples.spaceKey false) initialApp)
     = str "error".
Proof.
  cbv zeta.
  assert (Hkey : forall b, key (MoreSamples.spaceKey b) = str " ")
    by reflexivity.
  split; [exact (Hkey false)|]. split.
  - destruct (@space_key (Samples.chatHost 1) (Samples.widgetHost Dom.emptyDocument)
                (MoreSamples.spaceKey true) initialApp (Hkey true))
      as (Hfocused & _).
    exact (Hfocused eq_refl).
  - destruct (@space_key (Samples.chatHost 1) (Samples.widgetHost Dom.emptyDocument)
                (MoreSamples.spaceKey false) initialApp (Hkey false))
      as (_ & _ & _ & Hfail).
    destruct (Hfail eq_refl eq_refl eq_refl) as (_ & Hstatus & _).
    exact Hstatus.
Defined.

(** X21. Enter alone does nothing at the document level. With Ctrl or Cmd
    it sends the draft in the input, whatever the listening and loading flags
    are: a draft that is not blank becomes one more user message holding the
    trimmed draft, the input is emptied and the loading flag set; a blank
    draft changes nothing. *)
Theorem enter_key (hc : ChatWindow.Host) (hw : Widget.Host) (e : KeyEvent)
    (app : App) :
  key e = str "Enter" ->
  let app' := handleKeyDown hc hw e app in
  let draft := ChatWindow.inputValue (ui app) in
  (ctrlKey e || metaKey e = false -> app' = app)
  /\ (ctrlKey e || metaKey e = true ->
      isBlank draft = true -> app' = app)
  /\ (ctrlKey e || metaKey e = true ->
      isBlank draft = false ->
      hook app' = hook app
      /\ ChatWindow.inputValue (ui app') = []
      /\ ChatWindow.isLoading (ui app') = true
      /\ exists m,
          ChatState.messages (ChatWindow.chatState (ui app'))
          = ChatState.messages (ChatWindow.chatState (ui app)) ++ [m]
          /\ Message.sender m = user
          /\ Message.content m = trim draft).
Proof.
  intros Hkey app' draft. unfold app', draft. key_is (str "Enter") Hkey.
  split; [intros ->; reflexivity|]. split.
  - intros -> Hb. unfold withUi, ChatWindow.handleSendMessage.
    rewrite truthy_trim, Hb. simpl. now destruct app.
  - intros -> Hb. rewrite handleSendMessage_nonblank by exact Hb. simpl.
    repeat split. eexists. repeat split.
Qed.

Lemma enter_key_witness :
  let hc := Samples.chatHost 1 in
  let hw := Samples.widgetHost Samples.documentWithWidget in
  let app := MoreSamples.listeningApp (str " Hello ") in
  key MoreSamples.ctrlEnter = str "Enter"
  /\ ctrlKey MoreSamples.ctrlEnter || metaKey MoreSamples.ctrlEnter = true
  /\ isBlank (ChatWindow.inputValue (ui app)) = false
  /\ ChatWindow.inputValue (ui (handleKeyDown hc hw MoreSamples.ctrlEnter app))
     = []
  /\ ChatWindow.isLoading (ui (handleKeyDown hc hw MoreSamples.ctrlEnter app))
     = true.
Proof.
  cbv zeta.
  assert (Hkey : key MoreSamples.ctrlEnter = str "Enter") by reflexivity.
  assert (Hmod : ctrlKey MoreSamples.ctrlEnter || metaKey MoreSamples.ctrlEnter
                 = true) by reflexivity.
  assert (Hb : isBlank (ChatWindow.inputValue
                          (ui (MoreSamples.listeningApp (str " Hello "))))
               = false) by reflexivity.
  split; [exact Hkey|]. split; [exact Hmod|]. split; [exact Hb|].
  destruct (@enter_key (Samples.chatHost 1)
              (Samples.widgetHost Samples.documentWithWidget)
              MoreSamples.ctrlEnter (MoreSamples.listeningApp (str " Hello "))
              Hkey) as (_ & _ & Hsend).
  destruct (Hsend Hmod Hb) as (_ & Hinput & Hloading & _).
  split; [exact Hinput|exact Hloading].
Defined.

(** X22. When a voice toggle fails on a manager that is neither connected
    nor listening, the chat error first reads "Failed to toggle voice input.
    Please try again."; once the effect that copies the hook's state has run,
    it reads the hook's own message, "Voice service not connected". The
    effect never touches the messages. *)
Theorem sync_replaces_toggle_failure_text (hw : Widget.Host) (app : App) :
  Widget.isConnected (hook app) = false ->
  Widget.isListening (hook app) = false ->
  let failed := handleVoiceToggle hw app in
  ChatState.error (ChatWindow.chatState (ui failed))
  = Some (str "Failed to toggle voice input. Please try again.")
  /\ ChatState.error (ChatWindow.chatState (ui (syncChatState failed)))
     = Some (str "Voice service not connected")
  /\ ChatState.messages (ChatWindow.chatState (ui (syncChatState failed)))
     = ChatState.messages (ChatWindow.chatState (ui app))
  /\ getCurrentStatus (syncChatState failed) = str "error".
Proof.
  intros Hc Hl failed. unfold failed, handleVoiceToggle,
    Widget.toggleVoiceInput, Widget.startVoiceInput. simpl.
  rewrite Hl, Hc. simpl. repeat split.
Qed.

Lemma sync_replaces_toggle_failure_text_witness :
  Widget.isConnected (hook initialApp) = false
  /\ Widget.isListening (hook initialApp) = false
  /\ ChatState.error
       (ChatWindow.chatState
          (ui (syncChatState
                 (handleVoiceToggle (Samples.widgetHost Dom.emptyDocument)
                    initialApp))))
     = Some (str "Voice service not connected").
Proof.
  split; [reflexivity|]. split; [reflexivity|].
  destruct (@sync_replaces_toggle_failure_text
              (Samples.widgetHost Dom.emptyDocument) initialApp eq_refl eq_refl)
    as (_ & Hsync & _).
  exact Hsync.
Defined.

End KeyboardProperties.
